(** * 1-TMVA-Classification-py: the notebook and its runs

    The repository is one Jupyter notebook.  Its code cells are straight-line
    Python that drives an external toolkit (ROOT / TMVA).  This file has

    - the notebook as it is stored: the list of its cells, each with its
      cell type and, for code and raw cells, the statements of its source;
    - the evaluation of those statements over the kernel's global namespace,
      as a computation that makes requests to the toolkit;
    - the runs of the notebook ("Run All"): the code cells in document
      order, against a toolkit that answers every request by returning an
      object or by raising, the run ending at the first exception.

    The toolkit is external.  What a call returns and whether it raises is
    never assumed: statements about the notebook hold for every toolkit, or
    name the toolkit they are about. *)

From stdpp Require Import base strings gmap list.
From Stdlib Require Import Ascii QArith_base.

Close Scope Q_scope.
Local Open Scope string_scope.
Local Open Scope list_scope.

(** ** Syntax of the code cells *)

(** The expressions the notebook's source is made of. *)
#[warnings="-register-all"]
Inductive expr : Type :=
| EStr (pieces : list string)   (* one or more adjacent string literals *)
| EFloat (q : Q)                (* a float literal *)
| EName (x : string)            (* a variable or module name *)
| EAttr (e : expr) (a : string) (* e.a *)
| ECall (f : expr) (args : list expr).

(** The statements.  The notebook has no [try]; the statement is part of
    the language so that catching an exception can be told from letting it
    pass. *)
#[warnings="-register-all"]
Inductive stmt : Type :=
| SImport (m : string)               (* import m *)
| SFromImport (m x : string)         (* from m import x *)
| SAssign (x : string) (e : expr)    (* x = e *)
| SExpr (e : expr)                   (* e *)
| SMagic (name arg : string)         (* %name arg *)
| STry (body handler : list stmt).   (* try: body  except: handler *)

(** A cell of the notebook.  Of a markdown cell only the first line is
    kept; a raw cell holds text that is Python here, kept as statements. *)
Inductive cell : Type :=
| Markdown (heading : string)
| Code (body : list stmt)
| Raw (body : list stmt).

Declare Scope py_scope.
Delimit Scope py_scope with py.

Definition lit (s : string) : expr := EStr [s].

Notation "x ::= e" := (SAssign x e) (at level 60) : py_scope.
Notation "$ x" := (EName x) (at level 6, format "$ x") : py_scope.
Notation "e .: a" := (EAttr e a)
  (at level 7, left associativity, format "e .: a") : py_scope.

Local Open Scope py_scope.

(** ** The notebook, cell by cell *)

Module Notebook.

Definition cell_1 : list stmt :=
  [ SImport "ROOT";
    SFromImport "ROOT" "TMVA" ].

Definition cell_3 : list stmt :=
  [ SExpr (ECall ($"ROOT".:"TMVA".:"Tools".:"Instance") []);
    SExpr (ECall ($"TMVA".:"PyMethodBase".:"PyInitialize") []);
    "outputFile" ::=
      ECall ($"ROOT".:"TFile".:"Open")
        [ lit "ClassificationOutput.root"; lit "RECREATE" ];
    "factory" ::=
      ECall ($"ROOT".:"TMVA".:"Factory")
        [ lit "TMVA_Classification"; $"outputFile";
          lit "!V:ROC:!Silent:Color:!DrawProgressBar:AnalysisType=Classification" ] ].

Definition cell_5 : list stmt :=
  [ "inputFileName" ::= lit "data/tmva_data.root";
    "inputFile" ::= ECall ($"ROOT".:"TFile".:"Open") [ $"inputFileName" ];
    "signalTree" ::= ECall ($"inputFile".:"Get") [ lit "sig_tree" ];
    "backgroundTree" ::= ECall ($"inputFile".:"Get") [ lit "bkg_tree" ] ].

Definition cell_7 : list stmt :=
  [ SExpr (ECall ($"signalTree".:"Print") []) ].

Definition cell_9 : list stmt :=
  [ "loader" ::= ECall ($"ROOT".:"TMVA".:"DataLoader") [ lit "dataset" ];
    "signalWeight" ::= EFloat (1 # 1)%Q;
    "backgroundWeight" ::= EFloat (1 # 1)%Q;
    SExpr (ECall ($"loader".:"AddSignalTree") [ $"signalTree"; $"signalWeight" ]);
    SExpr (ECall ($"loader".:"AddBackgroundTree")
             [ $"backgroundTree"; $"backgroundWeight" ]);
    SExpr (ECall ($"loader".:"AddVariable") [ lit "m_jj" ]);
    SExpr (ECall ($"loader".:"AddVariable") [ lit "m_jjj" ]);
    SExpr (ECall ($"loader".:"AddVariable") [ lit "m_lv" ]);
    SExpr (ECall ($"loader".:"AddVariable") [ lit "m_jlv" ]);
    SExpr (ECall ($"loader".:"AddVariable") [ lit "m_bb" ]);
    SExpr (ECall ($"loader".:"AddVariable") [ lit "m_wbb" ]);
    SExpr (ECall ($"loader".:"AddVariable") [ lit "m_wwbb" ]) ].

Definition cell_11 : list stmt :=
  [ "mycuts" ::= ECall ($"ROOT".:"TCut") [ lit EmptyString ];
    "mycutb" ::= ECall ($"ROOT".:"TCut") [ lit EmptyString ];
    SExpr (ECall ($"loader".:"PrepareTrainingAndTestTree")
             [ $"mycuts"; $"mycutb";
               EStr [ "nTrain_Signal=7000:nTrain_Background=7000:SplitMode=Random:";
                      "NormMode=NumEvents:!V" ] ]) ].

Definition cell_13 : list stmt :=
  [ SExpr (ECall ($"factory".:"BookMethod")
             [ $"loader"; $"ROOT".:"TMVA".:"Types".:"kBDT"; lit "BDT";
               EStr [ "!V:NTrees=200:MinNodeSize=2.5%:MaxDepth=2:BoostType=AdaBoost:AdaBoostBeta=0.5:UseBaggedBoost:";
                      "BaggedSampleFraction=0.5:SeparationType=GiniIndex:nCuts=20" ] ]);
    SExpr (ECall ($"factory".:"BookMethod")
             [ $"loader"; $"ROOT".:"TMVA".:"Types".:"kMLP"; lit "MLP";
               lit "!H:!V:NeuronType=tanh:VarTransform=N:NCycles=100:HiddenLayers=N+5:TestRate=5:!UseRegulator" ]) ].

(* the raw cell: the optional scikit-learn bookings *)
Definition cell_15 : list stmt :=
  [ SExpr (ECall ($"factory".:"BookMethod")
             [ $"loader"; $"ROOT".:"TMVA".:"Types".:"kPyGTB"; lit "PyGTB";
               EStr [ "H:!V:VarTransform=G:NEstimators=400:LearningRate=0.1:";
                      "MaxDepth=3" ] ]);
    SExpr (ECall ($"factory".:"BookMethod")
             [ $"loader"; $"ROOT".:"TMVA".:"Types".:"kPyRandomForest";
               lit "PyRandomForest";
               EStr [ "!V:VarTransform=G:NEstimators=400:";
                      "Criterion=gini:MaxFeatures=auto:MaxDepth=6:MinSamplesLeaf=3:MinWeightFractionLeaf=0:";
                      "Bootstrap=kTRUE" ] ]);
    SExpr (ECall ($"factory".:"BookMethod")
             [ $"loader"; $"ROOT".:"TMVA".:"Types".:"kPyAdaBoost";
               lit "PyAdaBoost"; lit "!V:VarTransform=G:NEstimators=400" ]) ].

Definition cell_17 : list stmt :=
  [ SExpr (ECall ($"factory".:"TrainAllMethods") []) ].

Definition cell_19 : list stmt :=
  [ SExpr (ECall ($"factory".:"TestAllMethods") []) ].

Definition cell_21 : list stmt :=
  [ SExpr (ECall ($"factory".:"EvaluateAllMethods") []) ].

Definition cell_23 : list stmt := [ SMagic "jsroot" "on" ].

Definition cell_24 : list stmt :=
  [ "c1" ::= ECall ($"factory".:"GetROCCurve") [ $"loader" ];
    SExpr (ECall ($"c1".:"Draw") []) ].

Definition cell_26 : list stmt :=
  [ SExpr (ECall ($"outputFile".:"Close") []) ].

Definition cells : list cell :=
  [ Markdown "# TMVA Classification Example in Python";
    Code cell_1;
    Markdown "## Declare Factory";
    Code cell_3;
    Markdown "## Input Data";
    Code cell_5;
    Markdown "and print a summary of the signal tree";
    Code cell_7;
    Markdown "## Declare DataLoader(s)";
    Code cell_9;
    Markdown "## Setup Dataset(s)";
    Code cell_11;
    Markdown "# Booking Methods";
    Code cell_13;
    Markdown "## Using scikit-learn (optional)";
    Raw cell_15;
    Markdown "## Train Methods";
    Code cell_17;
    Markdown "## Test  all methods";
    Code cell_19;
    Markdown "## Evaluate all methods";
    Code cell_21;
    Markdown "## Plot ROC Curve";
    Code cell_23;
    Code cell_24;
    Markdown "####  Close outputfile to save all output information (evaluation result of methods)";
    Code cell_26;
    Code [] ].

End Notebook.

(** ** Values, requests and traces *)

(** A handle is an opaque reference to an object the toolkit owns.  The
    notebook never looks inside one; a call that has nothing to return gives
    back the None object, one more opaque object. *)
Definition handle := nat.

Inductive value : Type :=
| VStr (s : string)
| VFloat (q : Q)
| VRef (path : list string)          (* a name inside the toolkit's namespace *)
| VHandle (h : handle)               (* an object returned by the toolkit *)
| VBound (h : handle) (m : string).  (* a bound method h.m *)

(** A Python exception: its class and its message. *)
Record exn : Type := Exn { exn_class : string; exn_msg : string }.

(** What the notebook asks of the world outside it. *)
Inductive request : Type :=
| RImport (m : string) (x : option string)
| RStatic (path : list string) (args : list value)
| RMethod (self : handle) (m : string) (args : list value)
| RMagic (name arg : string).

Inductive response : Type :=
| Raise (e : exn)
| Return (h : handle).

Record event : Type := Event { ev_req : request; ev_resp : response }.

(** The toolkit answers each request knowing everything that happened
    before it. *)
Definition toolkit := list event -> request -> response.

(** ** Evaluation *)

(** A computation of the kernel either finishes or makes a request and
    continues, one way if the toolkit raises and another if it returns an
    object. *)
Inductive proc (A : Type) : Type :=
| Done (a : A)
| Ask (r : request) (on_raise : exn -> proc A) (on_return : handle -> proc A).

Arguments Done {A} a.
Arguments Ask {A} r on_raise on_return.

Fixpoint proc_bind {A B} (p : proc A) (f : A -> proc B) : proc B :=
  match p with
  | Done a => f a
  | Ask r kr kh => Ask r (fun e => proc_bind (kr e) f) (fun h => proc_bind (kh h) f)
  end.

(** A piece of Python ends with a value or with an exception, and leaves the
    kernel's global namespace as it is at that moment either way. *)
Definition PY (A : Type) : Type :=
  gmap string value -> proc ((exn + A) * gmap string value).

#[global] Instance PY_ret : MRet PY := fun A a g => Done (inr a, g).

(** Sequencing: an exception skips what follows. *)
#[global] Instance PY_bind : MBind PY := fun A B f m g =>
  proc_bind (m g)
    (fun '(x, g') =>
       match x with
       | inl e => Done (inl e, g')
       | inr a => f a g'
       end).

Definition throw {A} (e : exn) : PY A := fun g => Done (inl e, g).

(** Catching: an exception of [m] is replaced by what the handler does, in
    the namespace [m] left. *)
Definition catch {A} (m : PY A) (handler : PY A) : PY A :=
  fun g =>
    proc_bind (m g)
      (fun '(x, g') =>
         match x with
         | inl _ => handler g'
         | inr a => Done (inr a, g')
         end).

(** A request: what the toolkit raises is raised here. *)
Definition perform (r : request) : PY value :=
  fun g => Ask r (fun e => Done (inl e, g)) (fun h => Done (inr (VHandle h), g)).

Definition NameError (x : string) : exn :=
  Exn "NameError" ("name '" +:+ x +:+ "' is not defined").

Definition AttributeError (a : string) : exn :=
  Exn "AttributeError" ("object has no attribute '" +:+ a +:+ "'").

Definition TypeError : exn :=
  Exn "TypeError" "object is not callable".

Definition load (x : string) : PY value :=
  fun g =>
    match g !! x with
    | Some v => Done (inr v, g)
    | None => Done (inl (NameError x), g)
    end.

Definition store (x : string) (v : value) : PY unit :=
  fun g => Done (inr tt, <[x := v]> g).

(** A dotted name under an imported module stays a name until it is called
    or handed to a call: resolving it is the toolkit's business, as part of
    the request it appears in.  An attribute of an object is a bound
    method. *)
Definition getattr (v : value) (a : string) : PY value :=
  match v with
  | VRef p => mret (VRef (p ++ [a]))
  | VHandle h => mret (VBound h a)
  | _ => throw (AttributeError a)
  end.

Definition apply (f : value) (args : list value) : PY value :=
  match f with
  | VRef p => perform (RStatic p args)
  | VBound h m => perform (RMethod h m args)
  | _ => throw TypeError
  end.

(** Expressions: the callee is evaluated first, then the arguments from left
    to right, then the call is made.  Adjacent string literals are one
    literal. *)
Fixpoint eval (e : expr) : PY value :=
  match e with
  | EStr ps => mret (VStr (String.concat EmptyString ps))
  | EFloat q => mret (VFloat q)
  | EName x => load x
  | EAttr e a => v ← eval e; getattr v a
  | ECall f args =>
      vf ← eval f;
      vs ← (fix eval_args (es : list expr) : PY (list value) :=
              match es with
              | [] => mret []
              | e :: es => v ← eval e; vs ← eval_args es; mret (v :: vs)
              end) args;
      apply vf vs
  end.

(** Statements one after the other. *)
Definition in_sequence (f : stmt -> PY unit) : list stmt -> PY unit :=
  fix go (ss : list stmt) : PY unit :=
    match ss with
    | [] => mret tt
    | s :: ss => f s ;; go ss
    end.

Fixpoint exec (s : stmt) : PY unit :=
  match s with
  | SImport m => perform (RImport m None) ;; store m (VRef [m])
  | SFromImport m x => perform (RImport m (Some x)) ;; store x (VRef [m; x])
  | SAssign x e => v ← eval e; store x v
  | SExpr e => eval e ;; mret tt
  | SMagic name arg => perform (RMagic name arg) ;; mret tt
  | STry body handler => catch (in_sequence exec body) (in_sequence exec handler)
  end.

Definition exec_body (ss : list stmt) : PY unit := in_sequence exec ss.

(** Only code cells are executed; markdown and raw cells are skipped.  An
    exception in a cell skips the cells after it. *)
Definition exec_cell (c : cell) : PY unit :=
  match c with
  | Code body => exec_body body
  | Markdown _ | Raw _ => mret tt
  end.

Fixpoint exec_cells (cs : list cell) : PY unit :=
  match cs with
  | [] => mret tt
  | c :: cs => exec_cell c ;; exec_cells cs
  end.

(** ** Runs *)

Record result : Type := Result
  { outcome : option exn;      (* [None]: ran to the end *)
    events : list event }.     (* everything asked of the world, in order *)

(** Playing a computation against a toolkit.  Each request and its answer
    are appended to the history. *)
Fixpoint interact {A} (tk : toolkit) (p : proc A) (hist : list event)
  : A * list event :=
  match p with
  | Done a => (a, hist)
  | Ask r kr kh =>
      match tk hist r with
      | Raise e => interact tk (kr e) (hist ++ [Event r (Raise e)])
      | Return h => interact tk (kh h) (hist ++ [Event r (Return h)])
      end
  end.

Definition ended {A} (x : exn + A) : option exn :=
  match x with
  | inl e => Some e
  | inr _ => None
  end.

Definition result_of {A} (x : (exn + A) * list event) : result :=
  Result (ended (fst x)) (snd x).

(** A piece of Python run in a fresh kernel (an empty global namespace), as
    a computation that ends with its value or its exception. *)
Definition from_fresh_kernel (m : PY unit) : proc (exn + unit) :=
  proc_bind (m ∅) (fun xg => Done (fst xg)).

(** What the notebook asks of the world, as one computation: all cells from
    the top, in a fresh kernel. *)
Definition script : proc (exn + unit) := Eval vm_compute in
  from_fresh_kernel (exec_cells Notebook.cells).

(** A run of the notebook under a given toolkit. *)
Definition run (tk : toolkit) : result := result_of (interact tk script []).

(** A run of any list of cells, and the notebook with its raw cells turned
    into code cells (what pressing Y on them does). *)
Definition play (tk : toolkit) (cs : list cell) : result :=
  result_of (interact tk (from_fresh_kernel (exec_cells cs)) []).

Definition activate (c : cell) : cell :=
  match c with
  | Raw body => Code body
  | _ => c
  end.

Definition completed (r : result) : Prop := outcome r = None.

(** The toolkit under which every request succeeds, each returning a fresh
    object numbered by its position in the run. *)
Definition ideal : toolkit := fun hist _ => Return (length hist).

(** ** Reasoning about every run *)

(** [paths P p hist] holds when [P] holds of the end of every way [p] can go
    from history [hist]: at each request, the toolkit raises any exception
    or returns any object. *)
Fixpoint paths {A} (P : A -> list event -> Prop) (p : proc A) (hist : list event) : Prop :=
  match p with
  | Done a => P a hist
  | Ask r kr kh =>
      (forall e, paths P (kr e) (hist ++ [Event r (Raise e)])) /\
      (forall h, paths P (kh h) (hist ++ [Event r (Return h)]))
  end.

(** ** Reading a trace *)

Definition is_call (r : request) : bool :=
  match r with
  | RStatic _ _ | RMethod _ _ _ => true
  | RImport _ _ | RMagic _ _ => false
  end.

Definition static_call (p : list string) (r : request) : bool :=
  match r with
  | RStatic q _ => bool_decide (q = p)
  | _ => false
  end.

Definition method_call (m : string) (r : request) : bool :=
  match r with
  | RMethod _ n _ => bool_decide (n = m)
  | _ => false
  end.

Definition req_args (r : request) : list value :=
  match r with
  | RStatic _ args | RMethod _ _ args => args
  | RImport _ _ | RMagic _ _ => []
  end.

(** Everything handed to the toolkit by a call: the receiver, if any, and
    the arguments. *)
Definition req_operands (r : request) : list value :=
  match r with
  | RMethod h _ args => VHandle h :: args
  | _ => req_args r
  end.

(** The argument lists of the calls of method [m], in the order made. *)
Definition method_args (m : string) (r : result) : list (list value) :=
  map (fun ev => req_args (ev_req ev))
      (filter (fun ev => method_call m (ev_req ev) = true) (events r)).

(** The objects returned so far by the calls that satisfy [sel]. *)
Definition returned_by (sel : request -> bool) (hist : list event) : list handle :=
  omap (fun ev =>
          match ev_resp ev with
          | Return h => if sel (ev_req ev) then Some h else None
          | Raise _ => None
          end) hist.

Fixpoint each {A} (P : A -> Prop) (l : list A) : Prop :=
  match l with
  | [] => True
  | x :: l => P x /\ each P l
  end.

(** [P] of every event together with the events before it. *)
Fixpoint each_event (P : list event -> event -> Prop) (hist tr : list event) : Prop :=
  match tr with
  | [] => True
  | ev :: tr => P hist ev /\ each_event P (hist ++ [ev]) tr
  end.

(** ** The steps of the analysis *)

Inductive step : Type :=
| LibraryInit | InputRetrieval | VariableRegistration | Partitioning
| Booking | Training | Testing | Evaluation | RocPlotting.

Definition step_index (s : step) : nat :=
  match s with
  | LibraryInit => 0 | InputRetrieval => 1 | VariableRegistration => 2
  | Partitioning => 3 | Booking => 4 | Training => 5 | Testing => 6
  | Evaluation => 7 | RocPlotting => 8
  end.

(** A file opened without a mode argument is opened for reading. *)
Definition opens_for_reading (r : request) : bool :=
  match r with
  | RStatic p [_] => bool_decide (p = ["ROOT"; "TFile"; "Open"])
  | _ => false
  end.

(** The step a toolkit call belongs to, if it is one of the nine. *)
Definition step_of (r : request) : option step :=
  if static_call ["ROOT"; "TMVA"; "Tools"; "Instance"] r
     || static_call ["ROOT"; "TMVA"; "PyMethodBase"; "PyInitialize"] r
  then Some LibraryInit
  else if opens_for_reading r || method_call "Get" r then Some InputRetrieval
  else if method_call "AddVariable" r then Some VariableRegistration
  else if method_call "PrepareTrainingAndTestTree" r then Some Partitioning
  else if method_call "BookMethod" r then Some Booking
  else if method_call "TrainAllMethods" r then Some Training
  else if method_call "TestAllMethods" r then Some Testing
  else if method_call "EvaluateAllMethods" r then Some Evaluation
  else if method_call "GetROCCurve" r then Some RocPlotting
  else None.

Definition steps (r : result) : list (option step) :=
  map (fun ev => step_of (ev_req ev)) (events r).

(** Every call of an earlier step is made before every call of a later
    step. *)
Definition steps_in_order (r : result) : Prop :=
  forall i j s t,
    steps r !! i = Some (Some s) -> steps r !! j = Some (Some t) ->
    step_index s < step_index t -> i < j.

Definition step_sequence : list step :=
  [ LibraryInit; LibraryInit;
    InputRetrieval; InputRetrieval; InputRetrieval;
    VariableRegistration; VariableRegistration; VariableRegistration;
    VariableRegistration; VariableRegistration; VariableRegistration;
    VariableRegistration;
    Partitioning; Booking; Booking; Training; Testing; Evaluation;
    RocPlotting ].

(** A checker for [steps_in_order]: the step indices met along the list
    never go down. *)
Fixpoint never_back (floor : nat) (l : list (option step)) : bool :=
  match l with
  | [] => true
  | None :: l => never_back floor l
  | Some s :: l => Nat.leb floor (step_index s) && never_back (step_index s) l
  end.

(** ** Option strings *)

(** The pieces of [s] between the occurrences of [sep]. *)
Fixpoint split_on (sep : ascii) (s : string) : list string :=
  match s with
  | EmptyString => [EmptyString]
  | String c s' =>
      if Ascii.eqb c sep then EmptyString :: split_on sep s'
      else match split_on sep s' with
           | [] => [String c EmptyString]
           | t :: ts => String c t :: ts
           end
  end.

(** The settings of a colon-delimited option string. *)
Definition option_tokens (s : string) : list string := split_on ":"%char s.

(** ** Booking *)

Definition kBDT : value := VRef ["ROOT"; "TMVA"; "Types"; "kBDT"].
Definition kMLP : value := VRef ["ROOT"; "TMVA"; "Types"; "kMLP"].

(** Method type, method name and option string of each booking made (the
    first argument, the data loader, is left out). *)
Definition booked_methods (r : result) : list (list value) :=
  map (drop 1) (method_args "BookMethod" r).

Definition factories (hist : list event) : list handle :=
  returned_by (static_call ["ROOT"; "TMVA"; "Factory"]) hist.

(** Every booking is made on an object the Factory constructor returned. *)
Definition booked_on_factory (r : result) : Prop :=
  forall i h args resp,
    events r !! i = Some (Event (RMethod h "BookMethod" args) resp) ->
    In h (factories (take i (events r))).

Definition on_factory_at (hist : list event) (ev : event) : Prop :=
  match ev_req ev with
  | RMethod h m _ =>
      if bool_decide (m = "BookMethod") then In h (factories hist) else True
  | _ => True
  end.

Definition BDT_settings (opts : string) : Prop :=
  let settings := option_tokens opts in
  1 < length settings /\
  each (fun t => t <> EmptyString) settings /\
  In "!V" settings /\
  In "NTrees=200" settings /\
  In "MaxDepth=2" settings /\
  In "BoostType=AdaBoost" settings.

(** ** What is handed to the toolkit *)

(** The values of the literals written in an expression: a string literal
    stands for the string its pieces join into, a float literal for its
    number. *)
#[warnings="-register-all"]
Fixpoint constants (e : expr) : list value :=
  match e with
  | EStr ps => [VStr (String.concat EmptyString ps)]
  | EFloat q => [VFloat q]
  | EName _ => []
  | EAttr e _ => constants e
  | ECall f args =>
      constants f ++
      (fix go (es : list expr) : list value :=
         match es with
         | [] => []
         | e :: es => constants e ++ go es
         end) args
  end.

#[warnings="-register-all"]
Fixpoint stmt_constants (s : stmt) : list value :=
  match s with
  | SAssign _ e | SExpr e => constants e
  | SImport _ | SFromImport _ _ | SMagic _ _ => []
  | STry body handler =>
      let go := fix go (ss : list stmt) : list value :=
         match ss with
         | [] => []
         | s :: ss => stmt_constants s ++ go ss
         end in
      go body ++ go handler
  end.

(** The values of the literals written in the code cells. *)
Definition written_constants (cs : list cell) : list value :=
  concat (map (fun c => match c with
                        | Code body => concat (map stmt_constants body)
                        | Markdown _ | Raw _ => []
                        end) cs).

(** An operand as the toolkit receives it: the value of a string or float
    literal written in the notebook, as written, or an object that an
    earlier toolkit call of this run returned (an empty TCut is such an
    object, returned by the TCut constructor). *)
Definition literal_or_handle (hist : list event) (v : value) : Prop :=
  match v with
  | VStr _ | VFloat _ => In v (written_constants Notebook.cells)
  | VHandle h => In h (returned_by is_call hist)
  | VRef _ | VBound _ _ => False
  end.

(** The method types are named members of the toolkit's enumeration
    [ROOT.TMVA.Types]. *)
Definition enumeration_constant (v : value) : Prop := v = kBDT \/ v = kMLP.

Definition passed_through (hist : list event) (v : value) : Prop :=
  literal_or_handle hist v \/ enumeration_constant v.

(** A test for two literal values being the same. *)
Definition same_constant (v w : value) : bool :=
  match v, w with
  | VStr a, VStr b => bool_decide (a = b)
  | VFloat p, VFloat q =>
      bool_decide (Qnum p = Qnum q) && bool_decide (Qden p = Qden q)
  | _, _ => false
  end.

(** [passed_through], with the search among the written literals done by
    the test. *)
Definition passed_through_by_test (hist : list event) (v : value) : Prop :=
  match v with
  | VStr _ | VFloat _ => existsb (same_constant v) (written_constants Notebook.cells) = true
  | VHandle h => In h (returned_by is_call hist)
  | VRef _ => enumeration_constant v
  | VBound _ _ => False
  end.

(** Every operand of every call satisfies [ok], given the events before the
    call. *)
Definition operands_are (ok : list event -> value -> Prop) (r : result) : Prop :=
  forall i ev v,
    events r !! i = Some ev -> In v (req_operands (ev_req ev)) ->
    ok (take i (events r)) v.

(** The names a statement binds. *)
#[warnings="-register-all"]
Fixpoint binds (s : stmt) : list string :=
  match s with
  | SImport m => [m]
  | SFromImport _ x => [x]
  | SAssign x _ => [x]
  | SExpr _ | SMagic _ _ => []
  | STry body handler =>
      let go := fix go (ss : list stmt) : list string :=
         match ss with
         | [] => []
         | s :: ss => binds s ++ go ss
         end in
      go body ++ go handler
  end.

Definition bound_names (cs : list cell) : list string :=
  concat (map (fun c => match c with
                        | Code body => concat (map binds body)
                        | Markdown _ | Raw _ => []
                        end) cs).

(** A dotted name [a.b.c]. *)
Fixpoint dotted_name (e : expr) : bool :=
  match e with
  | EName _ => true
  | EAttr e _ => dotted_name e
  | _ => false
  end.

(** An operand written as a literal or as a name: nothing is computed from
    it on the way to the call. *)
Definition plain_operand (e : expr) : bool :=
  match e with
  | EStr _ | EFloat _ => true
  | _ => dotted_name e
  end.

(** A statement that only binds a literal, or makes one call on plain
    operands and at most binds what the call returns. *)
Definition plain_stmt (s : stmt) : bool :=
  match s with
  | SAssign _ e | SExpr e =>
      match e with
      | EStr _ | EFloat _ => true
      | ECall f args => dotted_name f && forallb plain_operand args
      | _ => false
      end
  | SImport _ | SFromImport _ _ | SMagic _ _ => true
  | STry _ _ => false
  end.

Definition code_statements (cs : list cell) : list stmt :=
  concat (map (fun c => match c with
                        | Code body => body
                        | Markdown _ | Raw _ => []
                        end) cs).

(** ** Exceptions *)

(** A computation that lets every exception of the toolkit pass, at once
    and as it is, and raises none of its own: where the toolkit raises, the
    computation ends with that exception; where it ends otherwise, it ends
    without one. *)
Fixpoint propagates {A} (p : proc (exn + A)) : Prop :=
  match p with
  | Done (inr _) => True
  | Done (inl _) => False
  | Ask _ kr kh => (forall e, kr e = Done (inl e)) /\ (forall h, propagates (kh h))
  end.

Definition answered (ev : event) : Prop := exists h, ev_resp ev = Return h.

Definition is_try (s : stmt) : bool :=
  match s with
  | STry _ _ => true
  | _ => false
  end.

(** No statement of any cell, code or raw, is a [try]. *)
Definition no_try (cs : list cell) : bool :=
  forallb (fun c => match c with
                    | Code body | Raw body => forallb (fun s => negb (is_try s)) body
                    | Markdown _ => true
                    end) cs.

(** A cell that does catch: the opening of the input file inside a [try]
    with an empty handler. *)
Definition guarded_open : list cell :=
  [ Code [ SImport "ROOT";
           STry [ SExpr (ECall ($"ROOT".:"TFile".:"Open") [ lit "data/tmva_data.root" ]) ]
                [] ] ].

(** The toolkit that raises [e] at its request number [k] and returns fresh
    objects otherwise. *)
Definition raising_at (k : nat) (e : exn) : toolkit :=
  fun hist _ => if Nat.eqb (length hist) k then Raise e else Return (length hist).

(** ** A toolkit with null objects *)

(** What the input file on disk may lack. *)
Record input_file : Type := InputFile
  { file_exists : bool; has_sig_tree : bool; has_bkg_tree : bool }.

Definition good_file : input_file := InputFile true true true.
Definition no_file : input_file := InputFile false false false.
Definition no_sig_tree : input_file := InputFile true false true.
Definition no_bkg_tree : input_file := InputFile true true false.

Definition null : handle := 0.

Definition ReferenceError : exn :=
  Exn "ReferenceError" "attempt to access a null-pointer".

Definition uses_null (r : request) : bool :=
  existsb (fun v => match v with VHandle 0 => true | _ => false end)
          (req_operands r).

Definition gets (name : string) (r : request) : bool :=
  match r with
  | RMethod _ m [VStr n] => bool_decide (m = "Get") && bool_decide (n = name)
  | _ => false
  end.

(** One way the toolkit may treat a deficient input file: opening a missing
    file, or getting a missing tree, gives back the null object without
    raising; every later call on, or with, the null object raises.  All
    other requests give back a fresh object. *)
Definition null_on_missing (f : input_file) : toolkit :=
  fun hist r =>
    if uses_null r then Raise ReferenceError
    else if opens_for_reading r && negb (file_exists f) then Return null
    else if gets "sig_tree" r && negb (has_sig_tree f) then Return null
    else if gets "bkg_tree" r && negb (has_bkg_tree f) then Return null
    else Return (S (length hist)).

(** ** Partitioning *)

Definition makes_empty_cut (r : request) : bool :=
  match r with
  | RStatic p [VStr s] => bool_decide (p = ["ROOT"; "TCut"]) && bool_decide (s = EmptyString)
  | _ => false
  end.

(** The empty TCut objects made so far. *)
Definition empty_cuts (hist : list event) : list handle :=
  returned_by makes_empty_cut hist.

Definition loaders (hist : list event) : list handle :=
  returned_by (static_call ["ROOT"; "TMVA"; "DataLoader"]) hist.

Definition partition_settings (opts : string) : Prop :=
  let settings := option_tokens opts in
  In "nTrain_Signal=7000" settings /\
  In "nTrain_Background=7000" settings /\
  In "SplitMode=Random" settings /\
  In "NormMode=NumEvents" settings.

(** A partitioning call as the notebook makes it, given the events before. *)
Definition partitions (hist : list event) (h : handle) (args : list value) : Prop :=
  match args with
  | [VHandle c1; VHandle c2; VStr opts] =>
      In h (loaders hist) /\
      In c1 (empty_cuts hist) /\ In c2 (empty_cuts hist) /\
      partition_settings opts
  | _ => False
  end.

Definition partition_at (hist : list event) (ev : event) : Prop :=
  match ev_req ev with
  | RMethod h m args =>
      if bool_decide (m = "PrepareTrainingAndTestTree")
      then partitions hist h args else True
  | _ => True
  end.

(** ** The output file *)

Definition opens_output (r : request) : bool :=
  match r with
  | RStatic p [VStr f; VStr mode] =>
      bool_decide (p = ["ROOT"; "TFile"; "Open"])
      && bool_decide (f = "ClassificationOutput.root")
      && bool_decide (mode = "RECREATE")
  | _ => false
  end.

(** The objects returned so far by opening the output file for
    re-creation. *)
Definition output_files (hist : list event) : list handle :=
  returned_by opens_output hist.

Definition closes (r : result) : list (list value) := method_args "Close" r.

(** In the specification's words: the output file is closed exactly once
    (on every run). *)
Definition closed_exactly_once (r : result) : Prop := length (closes r) = 1.

(** The factory is given an output file opened before. *)
Definition factory_on_output (hist : list event) (args : list value) : Prop :=
  match args with
  | [VStr _; VHandle f; VStr _] => In f (output_files hist)
  | _ => False
  end.

(** A closing call as the notebook makes it: on an output file opened
    before, after evaluation and ROC plotting. *)
Definition closes_output (hist : list event) (h : handle) (args : list value) : Prop :=
  args = [] /\
  In h (output_files hist) /\
  existsb (fun ev => method_call "EvaluateAllMethods" (ev_req ev)) hist = true /\
  existsb (fun ev => method_call "GetROCCurve" (ev_req ev)) hist = true.

Definition output_at (hist : list event) (ev : event) : Prop :=
  match ev_req ev with
  | RStatic p args =>
      if bool_decide (p = ["ROOT"; "TMVA"; "Factory"])
      then factory_on_output hist args else True
  | RMethod h m args =>
      if bool_decide (m = "Close") then closes_output hist h args else True
  | _ => True
  end.

(** Once the two imports and the two initialization calls have returned, the
    next request opens "ClassificationOutput.root" with mode "RECREATE". *)
Definition recreates_output (r : result) : Prop :=
  length (events r) <= 4 \/
  exists resp,
    events r !! 4
    = Some (Event (RStatic ["ROOT"; "TFile"; "Open"]
                     [VStr "ClassificationOutput.root"; VStr "RECREATE"]) resp).

(** A closing call, if there is one, is the last request of the run. *)
Definition close_is_last (r : result) : Prop :=
  forall i ev,
    events r !! i = Some ev -> method_call "Close" (ev_req ev) = true ->
    length (events r) = S i.

Fixpoint last_only (sel : event -> bool) (l : list event) : bool :=
  match l with
  | [] => true
  | [_] => true
  | ev :: l => negb (sel ev) && last_only sel l
  end.

(** ** The input file and its trees *)

(** The request on which a run failed. *)
Definition failing_request (r : result) : option request :=
  match outcome r with
  | Some _ => ev_req <$> last (events r)
  | None => None
  end.

(** In the specification's words: with a deficient input file the run fails
    at the printing of the tree or at AddSignalTree. *)
Definition fails_at_tree_use (r : result) : Prop :=
  exists q,
    failing_request r = Some q /\
    (method_call "Print" q = true \/ method_call "AddSignalTree" q = true).

(** The request made, and the object returned, at position [i] of a run. *)
Definition asks (r : result) (i : nat) (q : request) : Prop :=
  ev_req <$> events r !! i = Some q.

Definition returns (r : result) (i : nat) (h : handle) : Prop :=
  ev_resp <$> events r !! i = Some (Return h).

(** Whatever the opening of the input file returns is the receiver of the
    very next request, the retrieval of "sig_tree". *)
Definition file_used_unchecked (r : result) : Prop :=
  forall i name f,
    events r !! i
    = Some (Event (RStatic ["ROOT"; "TFile"; "Open"] [VStr name]) (Return f)) ->
    asks r (S i) (RMethod f "Get" [VStr "sig_tree"]).

(** Whatever the retrieval of "sig_tree" returns is printed as soon as the
    retrieval of "bkg_tree", the next request, has returned. *)
Definition signal_tree_used_unchecked (r : result) : Prop :=
  forall i f s,
    events r !! i = Some (Event (RMethod f "Get" [VStr "sig_tree"]) (Return s)) ->
    asks r (S i) (RMethod f "Get" [VStr "bkg_tree"]) /\
    forall b, returns r (S i) b -> asks r (S (S i)) (RMethod s "Print" []).

(** Whatever the retrieval of "bkg_tree" returns is handed to
    AddBackgroundTree as soon as the printing, the construction of the
    loader and AddSignalTree have returned. *)
Definition background_tree_used_unchecked (r : result) : Prop :=
  forall i f b,
    events r !! i = Some (Event (RMethod f "Get" [VStr "bkg_tree"]) (Return b)) ->
    forall l x,
      returns r (i + 2) l -> returns r (i + 3) x ->
      asks r (i + 4) (RMethod l "AddBackgroundTree" [VHandle b; VFloat 1]).

(** Where the run fails under [null_on_missing]. *)
Definition first_null_use (f : input_file) : option request :=
  if negb (file_exists f) then Some (RMethod null "Get" [VStr "sig_tree"])
  else if negb (has_sig_tree f) then Some (RMethod null "Print" [])
  else if negb (has_bkg_tree f)
       then Some (RMethod 11 "AddBackgroundTree" [VHandle null; VFloat 1])
       else None.

(** [P] of every event together with the events after it. *)
Fixpoint each_suffix (P : event -> list event -> Prop) (l : list event) : Prop :=
  match l with
  | [] => True
  | ev :: l => P ev l /\ each_suffix P l
  end.

(** The three facts above, for one event and the events after it. *)
Definition used_unchecked (ev : event) (rest : list event) : Prop :=
  match ev with
  | Event (RStatic p [VStr _]) (Return f) =>
      if bool_decide (p = ["ROOT"; "TFile"; "Open"])
      then ev_req <$> rest !! 0 = Some (RMethod f "Get" [VStr "sig_tree"])
      else True
  | Event (RMethod f m [VStr n]) (Return t) =>
      if bool_decide (m = "Get") then
        if bool_decide (n = "sig_tree") then
          ev_req <$> rest !! 0 = Some (RMethod f "Get" [VStr "bkg_tree"]) /\
          (forall b, ev_resp <$> rest !! 0 = Some (Return b) ->
                     ev_req <$> rest !! 1 = Some (RMethod t "Print" []))
        else if bool_decide (n = "bkg_tree") then
          forall l x,
            ev_resp <$> rest !! 1 = Some (Return l) ->
            ev_resp <$> rest !! 2 = Some (Return x) ->
            ev_req <$> rest !! 3
            = Some (RMethod l "AddBackgroundTree" [VHandle t; VFloat 1])
        else True
      else True
  | _ => True
  end.

(** ** Trees and input variables *)

Definition input_variables : list string :=
  ["m_jj"; "m_jjj"; "m_lv"; "m_jlv"; "m_bb"; "m_wbb"; "m_wwbb"].

Definition name_char (c : ascii) : bool :=
  let n := nat_of_ascii c in
  (Nat.leb 97 n && Nat.leb n 122) || (Nat.leb 65 n && Nat.leb n 90)
  || (Nat.leb 48 n && Nat.leb n 57) || Nat.eqb n 95.

(** A bare branch name: letters, digits and underscores only, so no
    operator, call or other expression syntax. *)
Definition plain_name (s : string) : bool :=
  negb (bool_decide (s = EmptyString)) && forallb name_char (String.list_ascii_of_string s).

(** A tree registration as the notebook makes it: on the data loader, of a
    tree retrieved before under [name], with global weight 1.0. *)
Definition registers_tree (name : string) (hist : list event)
    (h : handle) (args : list value) : Prop :=
  match args with
  | [VHandle t; VFloat w] =>
      In h (loaders hist) /\ In t (returned_by (gets name) hist) /\ w = 1%Q
  | _ => False
  end.

(** A variable registration as the notebook makes it: on the data loader,
    with the bare name as its only argument. *)
Definition registers_variable (hist : list event) (h : handle) (args : list value) : Prop :=
  match args with
  | [VStr n] => In h (loaders hist) /\ plain_name n = true
  | _ => False
  end.

Definition registration_at (hist : list event) (ev : event) : Prop :=
  match ev_req ev with
  | RMethod h m args =>
      if bool_decide (m = "AddSignalTree") then registers_tree "sig_tree" hist h args
      else if bool_decide (m = "AddBackgroundTree") then registers_tree "bkg_tree" hist h args
      else if bool_decide (m = "AddVariable") then registers_variable hist h args
      else True
  | _ => True
  end.

(** ** The notebook with its raw cell activated, and with a cell left out *)

Definition run_activated (tk : toolkit) : result :=
  play tk (map activate Notebook.cells).

(** The notebook run without its cell number [k] (cells count from 0, as
    in the file). *)
Definition run_without (k : nat) (tk : toolkit) : result :=
  play tk (delete k Notebook.cells).

(** The run ended with an exception that no request raised: one of the
    kernel's own. *)
Definition failed_in_kernel (r : result) : bool :=
  match outcome r, last (events r) with
  | Some _, Some (Event _ (Raise _)) => false
  | Some _, _ => true
  | None, _ => false
  end.

(** The cells whose names later cells use, and the first such name used. *)
Definition needed_cells : list nat := [1; 3; 5; 9].

Definition first_missing (k : nat) : string :=
  match k with
  | 1 => "ROOT"
  | 3 => "factory"
  | 5 => "signalTree"
  | 9 => "loader"
  | _ => EmptyString
  end.

(** Method type and name of each booking made. *)
Definition booked_names (r : result) : list (list value) :=
  map (take 2) (booked_methods r).

Definition five_bookings : list (list value) :=
  [ [kBDT; VStr "BDT"]; [kMLP; VStr "MLP"];
    [VRef ["ROOT"; "TMVA"; "Types"; "kPyGTB"]; VStr "PyGTB"];
    [VRef ["ROOT"; "TMVA"; "Types"; "kPyRandomForest"]; VStr "PyRandomForest"];
    [VRef ["ROOT"; "TMVA"; "Types"; "kPyAdaBoost"]; VStr "PyAdaBoost"] ].

(** ** The shape of a run *)

(** A request with the objects in it blanked out. *)
Definition blank (v : value) : value :=
  match v with
  | VHandle _ => VHandle 0
  | VBound _ m => VBound 0 m
  | _ => v
  end.

Definition shape (q : request) : request :=
  match q with
  | RStatic p args => RStatic p (map blank args)
  | RMethod _ m args => RMethod 0 m (map blank args)
  | _ => q
  end.

Definition shapes (r : result) : list request :=
  map (fun ev => shape (ev_req ev)) (events r).

(** ** One factory, one loader *)

Definition static_args (p : list string) (r : result) : list (list value) :=
  map (fun ev => req_args (ev_req ev))
      (filter (fun ev => static_call p (ev_req ev) = true) (events r)).

(** A call on the factory, as the notebook makes it after the booking. *)
Definition uses_factory (hist : list event) (h : handle) (m : string)
    (args : list value) : Prop :=
  if bool_decide (m = "BookMethod") then
    In h (factories hist) /\
    match args with
    | [VHandle l; _; VStr _; VStr _] => In l (loaders hist)
    | _ => False
    end
  else if bool_decide (m = "TrainAllMethods") || bool_decide (m = "TestAllMethods")
          || bool_decide (m = "EvaluateAllMethods") then
    In h (factories hist) /\ args = []
  else if bool_decide (m = "GetROCCurve") then
    In h (factories hist) /\
    match args with
    | [VHandle l] => In l (loaders hist)
    | _ => False
    end
  else if bool_decide (m = "Draw") then
    args = [] /\
    match last hist with
    | Some (Event q (Return c)) => c = h /\ method_call "GetROCCurve" q = true
    | _ => False
    end
  else True.

Definition factory_use_at (hist : list event) (ev : event) : Prop :=
  match ev_req ev with
  | RMethod h m args => uses_factory hist h m args
  | _ => True
  end.

Definition on_one_factory (r : result) : Prop :=
  forall i h m args resp,
    events r !! i = Some (Event (RMethod h m args) resp) ->
    uses_factory (take i (events r)) h m args.

(** ** The plotting cells *)

Definition called (m : string) (hist : list event) : bool :=
  existsb (fun ev => method_call m (ev_req ev)) hist.

Definition is_magic (q : request) : bool :=
  match q with
  | RMagic _ _ => true
  | _ => false
  end.

Definition magics (r : result) : list request :=
  filter (fun q => is_magic q = true) (map ev_req (events r)).

(** The magic comes after the evaluation and before the ROC curve is asked
    for. *)
Definition magic_at (hist : list event) (ev : event) : Prop :=
  if is_magic (ev_req ev)
  then called "EvaluateAllMethods" hist = true /\ called "GetROCCurve" hist = false
  else True.

(** ** Option strings as a language *)

(** The name a setting sets: a flag, with its negation mark taken off, or
    the left side of an equation. *)
Fixpoint before_eq (s : string) : string :=
  match s with
  | EmptyString => EmptyString
  | String c s' => if Ascii.eqb c "="%char then EmptyString else String c (before_eq s')
  end.

Fixpoint after_eq (s : string) : option string :=
  match s with
  | EmptyString => None
  | String c s' => if Ascii.eqb c "="%char then Some s' else after_eq s'
  end.

Definition unmarked (s : string) : string :=
  match s with
  | String c s' => if Ascii.eqb c "!"%char then s' else s
  | EmptyString => s
  end.

Definition setting_key (t : string) : string := before_eq (unmarked t).

(** A setting is a flag, [Flag] or [!Flag], or an equation [Key=Value] with
    neither side empty and no negation mark. *)
Definition well_formed_setting (t : string) : bool :=
  match after_eq t with
  | None => negb (bool_decide (unmarked t = EmptyString))
  | Some v =>
      negb (bool_decide (before_eq t = EmptyString))
      && negb (bool_decide (v = EmptyString))
      && bool_decide (unmarked t = t)
  end.

Definition well_formed_options (s : string) : bool :=
  forallb well_formed_setting (option_tokens s)
  && bool_decide (NoDup (map setting_key (option_tokens s))).

(** The option string of a request that has one: the last argument of the
    Factory constructor, of the partitioning and of a booking. *)
Definition options_of (q : request) : option string :=
  match q with
  | RStatic p [_; _; VStr o] =>
      if bool_decide (p = ["ROOT"; "TMVA"; "Factory"]) then Some o else None
  | RMethod _ m [_; _; VStr o] =>
      if bool_decide (m = "PrepareTrainingAndTestTree") then Some o else None
  | RMethod _ m [_; _; _; VStr o] =>
      if bool_decide (m = "BookMethod") then Some o else None
  | _ => None
  end.

Definition option_strings (r : result) : list string :=
  omap (fun ev => options_of (ev_req ev)) (events r).

(** ** String literals written in several pieces *)

#[warnings="-register-all"]
Fixpoint literals (e : expr) : list (list string) :=
  match e with
  | EStr ps => [ps]
  | EFloat _ | EName _ => []
  | EAttr e _ => literals e
  | ECall f args =>
      literals f ++
      (fix go (es : list expr) : list (list string) :=
         match es with
         | [] => []
         | e :: es => literals e ++ go es
         end) args
  end.

#[warnings="-register-all"]
Fixpoint stmt_literals (s : stmt) : list (list string) :=
  match s with
  | SAssign _ e | SExpr e => literals e
  | SImport _ | SFromImport _ _ | SMagic _ _ => []
  | STry body handler =>
      let go := fix go (ss : list stmt) : list (list string) :=
         match ss with
         | [] => []
         | s :: ss => stmt_literals s ++ go ss
         end in
      go body ++ go handler
  end.

(** The literals of the code and raw cells. *)
Definition cell_literals (c : cell) : list (list string) :=
  match c with
  | Code body | Raw body => concat (map stmt_literals body)
  | Markdown _ => []
  end.

(** The settings written in the pieces of a literal, piece by piece; the
    empty rest after a piece's closing colon is no setting. *)
Definition settings_written (ps : list string) : list string :=
  concat (map (fun p => filter (fun t => t <> EmptyString) (option_tokens p)) ps).

(** ** The kernel's namespace after a run *)

(** The global namespace a run leaves, wherever it stops. *)
Definition namespace (tk : toolkit) : gmap string value :=
  snd (fst (interact tk (exec_cells Notebook.cells ∅) [])).

(** The notebook once more as one computation, ending with the bindings of
    the namespace it leaves. *)
Definition script_with_namespace
  : proc ((exn + unit) * list (string * value)) := Eval vm_compute in
  proc_bind (exec_cells Notebook.cells ∅)
    (fun xg => Done (fst xg, map_to_list (snd xg))).

(** The variables that are assigned what a call returns, each with the
    position of that call among the requests of a run. *)
Definition assigned_from_calls : list (string * nat) :=
  [ ("outputFile", 4); ("factory", 5); ("inputFile", 6); ("signalTree", 7);
    ("backgroundTree", 8); ("loader", 10); ("mycuts", 20); ("mycutb", 21);
    ("c1", 29) ].

(** The names bound without a call of their own, what they are bound to,
    and the position of the last request made before they are bound: an
    import binds its name once it has returned, a literal is assigned once
    the statement before it has returned. *)
Definition assigned_otherwise : list (string * value * nat) :=
  [ ("ROOT", VRef ["ROOT"], 0); ("TMVA", VRef ["ROOT"; "TMVA"], 1);
    ("inputFileName", VStr "data/tmva_data.root", 5);
    ("signalWeight", VFloat 1, 10); ("backgroundWeight", VFloat 1, 10) ].

Definition returned_at (r : result) (i : nat) : option handle :=
  match events r !! i with
  | Some (Event _ (Return h)) => Some h
  | _ => None
  end.

(** The bindings the assignments reached in a run have made. *)
Definition bindings_made (r : result) : list (string * value) :=
  omap (fun xi => (fun h => (fst xi, VHandle h)) <$> returned_at r (snd xi))
       assigned_from_calls
  ++ omap (fun xvi => (fun _ => fst xvi) <$> returned_at r (snd xvi))
       assigned_otherwise.

(** What holds at the end of every way the notebook can go. *)
Definition namespace_as_assigned (xl : (exn + unit) * list (string * value))
    (tr : list event) : Prop :=
  let r := Result (ended (fst xl)) tr in
  each (fun xv => In xv (bindings_made r)) (snd xl) /\
  each (fun xv => In xv (snd xl)) (bindings_made r) /\
  (completed r -> length (snd xl) = 14).

(** * Properties of the runs *)

(** ** Every way a run can go *)

Lemma interact_paths {A} (P : A -> list event -> Prop) (tk : toolkit) (p : proc A) :
  forall hist,
    paths P p hist -> P (fst (interact tk p hist)) (snd (interact tk p hist)).
Proof.
  induction p as [a|r kr IHr kh IHh]; intros hist HP; cbn in *; trivial.
  destruct HP as [Hraise Hret].
  destruct (tk hist r) as [e|h]; [apply IHr, Hraise | apply IHh, Hret].
Qed.

Lemma run_paths (P : result -> Prop) :
  paths (fun x tr => P (Result (ended x) tr)) script [] -> forall tk, P (run tk).
Proof. intros HP tk. exact (interact_paths _ tk script [] HP). Qed.

(** Changing the value a computation ends with changes nothing else. *)
Lemma interact_map {A B} (f : A -> B) tk (p : proc A) :
  forall hist,
    interact tk (proc_bind p (fun a => Done (f a))) hist
    = (f (fst (interact tk p hist)), snd (interact tk p hist)).
Proof.
  induction p as [a|r kr IHr kh IHh]; intros hist; cbn; trivial.
  destruct (tk hist r); trivial.
Qed.

Lemma script_eq : script = from_fresh_kernel (exec_cells Notebook.cells).
Proof. vm_compute. reflexivity. Qed.

Lemma run_play tk : run tk = play tk Notebook.cells.
Proof. unfold run, play. now rewrite script_eq. Qed.

(** Goals [forall tk, P (run tk)]: one goal per way the run can go, with the
    events of that run written out. *)
Ltac every_run :=
  match goal with
  | |- forall tk : toolkit, @?P tk =>
      let tk := fresh "tk" in
      intro tk; pattern (run tk); revert tk;
      apply run_paths; unfold script;
      lazy beta iota zeta delta [paths app ended];
      repeat match goal with
             | |- _ /\ _ => split
             | |- forall e : exn, _ => intro
             | |- forall h : handle, _ => intro
             end
  end.

(** ** Every event of a trace *)

Lemma each_In {A} (P : A -> Prop) l : each P l -> forall x, In x l -> P x.
Proof.
  induction l as [|y l IH]; cbn; [tauto|].
  intros [Hy Hl] x [<-|Hx]; auto.
Qed.

Lemma each_event_lookup P tr :
  forall hist, each_event P hist tr ->
  forall i ev, tr !! i = Some ev -> P (hist ++ take i tr) ev.
Proof.
  induction tr as [|ev0 tr IH]; intros hist H i ev Hi; [destruct i; discriminate|].
  destruct H as [H0 Hrest]. destruct i as [|i]; cbn in Hi |- *.
  - injection Hi as <-. now rewrite app_nil_r.
  - specialize (IH _ Hrest i ev Hi).
    now rewrite <- app_assoc in IH.
Qed.

(** ** The order of the steps *)

Lemma never_back_floor l :
  forall floor, never_back floor l = true ->
  forall j t, l !! j = Some (Some t) -> floor <= step_index t.
Proof.
  induction l as [|[s|] l IH]; intros floor H j t Hj.
  - destruct j; discriminate.
  - cbn in H. apply andb_prop in H as [Hs Hl]. apply Nat.leb_le in Hs.
    destruct j as [|j]; cbn in Hj.
    + injection Hj as <-. exact Hs.
    + specialize (IH _ Hl j t Hj). lia.
  - destruct j as [|j]; cbn in Hj; [discriminate|]. exact (IH _ H j t Hj).
Qed.

Lemma never_back_ordered l :
  forall floor, never_back floor l = true ->
  forall i j s t,
    l !! i = Some (Some s) -> l !! j = Some (Some t) ->
    step_index s < step_index t -> i < j.
Proof.
  induction l as [|[u|] l IH]; intros floor H i j s t Hi Hj Hlt.
  - destruct i; discriminate.
  - cbn in H. apply andb_prop in H as [_ Hl].
    destruct i as [|i], j as [|j]; cbn in Hi, Hj.
    + injection Hi as <-. injection Hj as <-. lia.
    + lia.
    + injection Hj as <-.
      pose proof (never_back_floor _ _ Hl i s Hi). lia.
    + specialize (IH _ Hl i j s t Hi Hj Hlt). lia.
  - destruct i as [|i], j as [|j]; cbn in Hi, Hj; try discriminate.
    specialize (IH _ H i j s t Hi Hj Hlt). lia.
Qed.

Lemma run_steps_in_order : forall tk, steps_in_order (run tk).
Proof.
  every_run; unfold steps_in_order;
    apply (never_back_ordered _ 0); vm_compute; reflexivity.
Qed.

(** [C1] In every run the toolkit calls of the nine steps are made in the
    order library initialization, input-file opening and tree retrieval,
    variable registration, train/test partitioning, method booking,
    training, testing, evaluation, ROC plotting: a call of an earlier step
    always precedes a call of a later one.  A run that reaches the end has
    made the calls of all nine. *)
Theorem C1_steps_in_order :
  forall tk,
    steps_in_order (run tk) /\
    (completed (run tk) -> omap id (steps (run tk)) = step_sequence).
Proof.
  intros tk. split; [apply run_steps_in_order|]. revert tk.
  every_run; intros H; solve [discriminate H | vm_compute; reflexivity].
Qed.

Lemma C1_steps_in_order_witness :
  3 < 6 /\ omap id (steps (run ideal)) = step_sequence.
Proof.
  destruct (C1_steps_in_order ideal) as [Hord Hall]. split.
  - apply (Hord 3 6 LibraryInit InputRetrieval); vm_compute; (reflexivity || lia).
  - apply Hall. vm_compute. reflexivity.
Defined.

(** ** Option strings and bookings *)

Lemma split_on_nonempty sep s : split_on sep s <> [].
Proof.
  destruct s as [|c s]; cbn; [discriminate|].
  destruct (Ascii.eqb c sep); [discriminate|].
  destruct (split_on sep s); discriminate.
Qed.

Lemma split_on_join sep s :
  String.concat (String sep EmptyString) (split_on sep s) = s.
Proof.
  induction s as [|c s IH]; [reflexivity|]. cbn [split_on].
  pose proof (split_on_nonempty sep s) as Hne.
  destruct (split_on sep s) as [|t ts]; [contradiction|].
  destruct (Ascii.eqb_spec c sep) as [->|_].
  - change (String sep (String.concat (String sep EmptyString) (t :: ts)) = String sep s).
    now rewrite IH.
  - destruct ts as [|u ts].
    + cbn in *. now rewrite IH.
    + change (String c (String.concat (String sep EmptyString) (t :: u :: ts)) = String c s).
      now rewrite IH.
Qed.

Ltac solve_in :=
  lazymatch goal with
  | |- True => exact I
  | |- _ = _ => reflexivity
  | |- _ \/ _ => first [left; solve_in | right; solve_in]
  end.

Ltac settle :=
  lazymatch goal with
  | |- True => exact I
  | |- _ \/ _ => solve_in
  | |- _ = _ => reflexivity
  | |- _ <> _ => discriminate
  | |- _ -> False => discriminate
  | |- _ <= _ => lia
  | |- _ < _ => lia
  end.

Ltac trace_facts :=
  vm_compute;
  repeat match goal with |- _ /\ _ => split end;
  settle.

Lemma booked_on_factory_by_events r :
  each_event on_factory_at [] (events r) -> booked_on_factory r.
Proof.
  intros H i h args resp Hi.
  exact (each_event_lookup _ _ _ H i _ Hi).
Qed.

(** [C2] Exactly two methods are booked: type kBDT named "BDT" and type
    kMLP named "MLP", in that order, each with a non-empty option string and
    each on the factory.  In no run is any other booking made (a run that
    stops early has made the first, or none); a run that reaches the end has
    made both.  The scikit-learn bookings are the body of a raw cell. *)
Theorem C2_two_methods_booked :
  exists o1 o2 : string,
    o1 <> EmptyString /\ o2 <> EmptyString /\
    forall tk,
      let both := [[kBDT; VStr "BDT"; VStr o1]; [kMLP; VStr "MLP"; VStr o2]] in
      booked_methods (run tk) `prefix_of` both /\
      (completed (run tk) -> booked_methods (run tk) = both) /\
      booked_on_factory (run tk) /\
      In (Raw Notebook.cell_15) Notebook.cells.
Proof.
  exists ("!V:NTrees=200:MinNodeSize=2.5%:MaxDepth=2:BoostType=AdaBoost:AdaBoostBeta=0.5:UseBaggedBoost:"
          +:+ "BaggedSampleFraction=0.5:SeparationType=GiniIndex:nCuts=20").
  exists "!H:!V:NeuronType=tanh:VarTransform=N:NCycles=100:HiddenLayers=N+5:TestRate=5:!UseRegulator".
  do 2 (split; [discriminate|]).
  every_run.
  all: try solve [vm_compute; eexists; reflexivity].
  all: try solve [intros H; first [discriminate H | vm_compute; reflexivity]].
  all: try solve [apply booked_on_factory_by_events; trace_facts].
  all: unfold Notebook.cells; cbn [In]; solve_in.
Qed.

(** Were the raw cell a code cell, its three bookings would be made too. *)
Lemma raw_cell_activated :
  map (fun args => args !! 1)
      (booked_methods (play ideal (map activate Notebook.cells)))
  = [ Some (VStr "BDT"); Some (VStr "MLP"); Some (VStr "PyGTB");
      Some (VStr "PyRandomForest"); Some (VStr "PyAdaBoost") ].
Proof. vm_compute. reflexivity. Qed.

Lemma C2_two_methods_booked_witness :
  exists o1 o2 : string,
    booked_methods (run ideal) = [[kBDT; VStr "BDT"; VStr o1]; [kMLP; VStr "MLP"; VStr o2]].
Proof.
  destruct C2_two_methods_booked as (o1 & o2 & _ & _ & H).
  exists o1, o2. apply (H ideal). vm_compute. reflexivity.
Defined.

(** [C3] The option string of the booking named "BDT" is colon-delimited
    (several non-empty settings separated by colons) and has the settings
    !V, NTrees=200, MaxDepth=2 and BoostType=AdaBoost among them.  A run
    that reaches the end has made that booking. *)
Theorem C3_BDT_option_string :
  forall tk,
    (forall args,
        In args (booked_methods (run tk)) -> args !! 1 = Some (VStr "BDT") ->
        exists opts, args = [kBDT; VStr "BDT"; VStr opts] /\ BDT_settings opts) /\
    (completed (run tk) ->
     exists args, In args (booked_methods (run tk)) /\ args !! 1 = Some (VStr "BDT")).
Proof.
  every_run.
  all: try solve [intros H; first [discriminate H | eexists; split; [left|]; reflexivity]].
  all: intros args Hin Hname; vm_compute in Hin.
  all: repeat (destruct Hin as [<-|Hin]); try contradiction; try discriminate Hname.
  all: eexists; split; [reflexivity|].
  all: trace_facts.
Qed.

Lemma C3_BDT_option_string_witness :
  exists args opts,
    In args (booked_methods (run ideal)) /\
    args = [kBDT; VStr "BDT"; VStr opts] /\ BDT_settings opts.
Proof.
  destruct (C3_BDT_option_string ideal) as [Hset Hbooked].
  assert (Hend : completed (run ideal)) by (vm_compute; reflexivity).
  destruct (Hbooked Hend) as (args & Hin & Hname).
  destruct (Hset args Hin Hname) as (opts & Hargs & Hopts).
  exists args, opts. exact (conj Hin (conj Hargs Hopts)).
Defined.

(** ** Operands *)

Lemma operands_by_events ok r :
  each_event (fun hist ev => each (ok hist) (req_operands (ev_req ev))) [] (events r) ->
  operands_are ok r.
Proof.
  intros H i ev v Hi Hv.
  exact (each_In _ _ (each_event_lookup _ _ _ H i ev Hi) v Hv).
Qed.

Lemma same_constant_eq v w : same_constant v w = true -> v = w.
Proof.
  destruct v as [a|p| | |], w as [b|q| | |]; cbn; try discriminate.
  - intros H. apply bool_decide_eq_true in H. now subst.
  - intros H. apply andb_prop in H as [Hn Hd].
    apply bool_decide_eq_true in Hn, Hd.
    destruct p, q; cbn in *. now subst.
Qed.

Lemma passed_through_by_test_sound hist v :
  passed_through_by_test hist v -> passed_through hist v.
Proof.
  assert (Hlit : existsb (same_constant v) (written_constants Notebook.cells) = true ->
                 In v (written_constants Notebook.cells)).
  { intros H. apply existsb_exists in H as (w & Hw & Hvw).
    now rewrite (same_constant_eq _ _ Hvw). }
  unfold passed_through, passed_through_by_test, literal_or_handle.
  destruct v; intros H;
    [ left; exact (Hlit H) | left; exact (Hlit H) | right; exact H
    | left; exact H | contradiction ].
Qed.

Lemma each_impl {A} (P Q : A -> Prop) l :
  (forall x, P x -> Q x) -> each P l -> each Q l.
Proof. intros HPQ. induction l; cbn; intuition. Qed.

Lemma each_event_impl (P Q : list event -> event -> Prop) tr :
  (forall hist ev, P hist ev -> Q hist ev) ->
  forall hist, each_event P hist tr -> each_event Q hist tr.
Proof. intros HPQ. induction tr; cbn; intuition. Qed.

(** [C4, as stated] fails where every request succeeds: the second operand
    of the first booking is the name ROOT.TMVA.Types.kBDT, neither a literal
    nor an object returned by a call. *)
Lemma C4_counterexample : ~ operands_are literal_or_handle (run ideal).
Proof.
  intros H.
  refine (H 23 (Event (RMethod 5 "BookMethod" _) (Return 23)) kBDT _ _).
  - vm_compute. reflexivity.
  - right. right. left. reflexivity.
Qed.

(** [C4, amended] Every operand the notebook hands to a toolkit call is the
    value of a string or float literal written in its code cells, exactly
    as written, an object returned by an earlier toolkit call of the same
    run (which covers the empty TCuts), or one of the toolkit's enumeration
    constants ROOT.TMVA.Types.kBDT and ROOT.TMVA.Types.kMLP named in the
    call.  No name is bound twice, so nothing is modified between the call
    that returned an object and the call that receives it; and every
    statement of the code cells binds a literal or makes one call whose
    operands are written as literals or names, so nothing is computed from
    a value on its way from one call to another. *)
Theorem C4_operands_passed_through :
  forall tk,
    operands_are passed_through (run tk) /\
    NoDup (bound_names Notebook.cells) /\
    forallb plain_stmt (code_statements Notebook.cells) = true.
Proof.
  assert (Hnames : NoDup (bound_names Notebook.cells))
    by (refine (bool_decide_unpack _ _); vm_compute; exact I).
  assert (Hplain : forallb plain_stmt (code_statements Notebook.cells) = true)
    by (vm_compute; reflexivity).
  every_run; try exact Hnames; try exact Hplain.
  all: apply operands_by_events.
  all: apply (each_event_impl
                (fun hist ev => each (passed_through_by_test hist) (req_operands (ev_req ev))));
    [ intros hist ev; apply each_impl, passed_through_by_test_sound | ].
  all: trace_facts.
Qed.

Lemma C4_operands_passed_through_witness :
  passed_through (take 5 (events (run ideal))) (VHandle 4) /\
  passed_through (take 6 (events (run ideal))) (VStr "data/tmva_data.root").
Proof.
  split.
  - refine (proj1 (C4_operands_passed_through ideal) 5
              (Event (RStatic ["ROOT"; "TMVA"; "Factory"] _) (Return 5)) _ _ _).
    + vm_compute. reflexivity.
    + right. left. reflexivity.
  - refine (proj1 (C4_operands_passed_through ideal) 6
              (Event (RStatic ["ROOT"; "TFile"; "Open"] _) (Return 6)) _ _ _).
    + vm_compute. reflexivity.
    + left. reflexivity.
Defined.

(** ** Exceptions *)

Lemma propagates_interact {A} tk (p : proc (exn + A)) :
  propagates p ->
  forall hist, Forall answered hist ->
    (forall i ev e,
        events (result_of (interact tk p hist)) !! i = Some ev ->
        ev_resp ev = Raise e ->
        outcome (result_of (interact tk p hist)) = Some e /\
        length (events (result_of (interact tk p hist))) = S i) /\
    (forall e,
        outcome (result_of (interact tk p hist)) = Some e ->
        exists req,
          last (events (result_of (interact tk p hist))) = Some (Event req (Raise e))).
Proof.
  induction p as [[e0|a]|r kr _ kh IH]; intros Hp hist Hhist; cbn in Hp.
  - contradiction.
  - split.
    + intros i ev e Hi He. cbn in Hi.
      destruct (Forall_lookup_1 _ _ _ _ Hhist Hi) as [h Hh]. congruence.
    + intros e He. discriminate He.
  - destruct Hp as [Hkr Hkh]. cbn [interact].
    destruct (tk hist r) as [e0|h].
    + rewrite Hkr. cbn. split.
      * intros i ev e Hi He. destruct (decide (i < length hist)) as [Hlt|Hge].
        -- rewrite lookup_app_l in Hi by exact Hlt.
           destruct (Forall_lookup_1 _ _ _ _ Hhist Hi) as [h Hh]. congruence.
        -- rewrite lookup_app_r in Hi by lia.
           destruct (i - length hist) as [|n] eqn:En; cbn in Hi;
             [|destruct n; discriminate].
           injection Hi as <-. cbn in He. injection He as <-.
           split; [reflexivity|]. rewrite length_app. cbn. lia.
      * intros e He. injection He as <-. exists r. apply last_snoc.
    + apply IH; [apply Hkh|].
      apply Forall_app. split; [exact Hhist|]. repeat constructor. now exists h.
Qed.

Lemma script_propagates : propagates script.
Proof. unfold script. cbn [propagates]. repeat first [split | intro]. Qed.

(** A [try] does catch: under a toolkit that raises at the opening of the
    file, the guarded cell runs to the end although a request raised. *)
Lemma try_catches :
  events (play (raising_at 1 ReferenceError) guarded_open) !! 1
  = Some (Event (RStatic ["ROOT"; "TFile"; "Open"] [VStr "data/tmva_data.root"])
            (Raise ReferenceError)) /\
  outcome (play (raising_at 1 ReferenceError) guarded_open) = None /\
  ~ propagates (from_fresh_kernel (exec_cells guarded_open)).
Proof.
  split; [vm_compute; reflexivity|]. split; [vm_compute; reflexivity|].
  vm_compute. intros [_ H]. destruct (H 0) as [H' _].
  specialize (H' ReferenceError). discriminate H'.
Qed.

(** [C5] The notebook has no try statement, in any cell, and nothing in it
    catches, replaces or swallows an exception: whenever a toolkit call
    raises, the run ends there with that very exception, the raising call
    being its last event; and a run only ever ends with an exception that
    its last request raised. *)
Theorem C5_errors_propagate :
  forall tk,
    (forall i ev e,
        events (run tk) !! i = Some ev -> ev_resp ev = Raise e ->
        outcome (run tk) = Some e /\ length (events (run tk)) = S i) /\
    (forall e,
        outcome (run tk) = Some e ->
        exists req, last (events (run tk)) = Some (Event req (Raise e))) /\
    no_try Notebook.cells = true.
Proof.
  intros tk.
  destruct (propagates_interact tk script script_propagates [] ltac:(constructor))
    as [Hup Hlast].
  split; [exact Hup|]. split; [exact Hlast|]. vm_compute. reflexivity.
Qed.

Lemma C5_errors_propagate_witness :
  (outcome (run (null_on_missing no_sig_tree)) = Some ReferenceError /\
   length (events (run (null_on_missing no_sig_tree))) = 10) /\
  exists req,
    last (events (run (null_on_missing no_sig_tree)))
    = Some (Event req (Raise ReferenceError)).
Proof.
  destruct (C5_errors_propagate (null_on_missing no_sig_tree)) as (Hup & Hlast & _).
  split.
  - refine (Hup 9 (Event (RMethod null "Print" []) (Raise ReferenceError)) _ _ _).
    + vm_compute. reflexivity.
    + reflexivity.
  - apply Hlast. vm_compute. reflexivity.
Defined.

(** ** Partitioning *)

Lemma run_partition_at : forall tk, each_event partition_at [] (events (run tk)).
Proof. every_run; trace_facts. Qed.

Lemma lookup_steps r i ev :
  events r !! i = Some ev -> steps r !! i = Some (step_of (ev_req ev)).
Proof.
  unfold steps. generalize (events r) as l. intros l; revert i.
  induction l as [|x l IH]; intros [|i] H; try discriminate; cbn in *.
  - now injection H as <-.
  - now apply IH.
Qed.

Lemma step_of_method m r :
  method_call m r = true -> step_of r = step_of (RMethod null m []).
Proof.
  destruct r as [| |h n args|]; try discriminate. cbn.
  intros H. apply bool_decide_eq_true in H. now subst n.
Qed.

(** [C7] The partitioning call PrepareTrainingAndTestTree is made at most
    once in any run, and exactly once, after seven AddVariable calls, in a
    run that reaches the end.  Where it is made, it is made on the data
    loader, both of its cuts are empty TCut objects made before, its option
    string has the settings nTrain_Signal=7000, nTrain_Background=7000,
    SplitMode=Random and NormMode=NumEvents, every AddVariable call precedes
    it and every BookMethod call follows it. *)
Theorem C7_partitioning_once :
  forall tk,
    length (method_args "PrepareTrainingAndTestTree" (run tk)) <= 1 /\
    (completed (run tk) ->
     length (method_args "PrepareTrainingAndTestTree" (run tk)) = 1 /\
     length (method_args "AddVariable" (run tk)) = 7) /\
    (forall i h args resp,
        events (run tk) !! i
        = Some (Event (RMethod h "PrepareTrainingAndTestTree" args) resp) ->
        partitions (take i (events (run tk))) h args /\
        (forall j ev, events (run tk) !! j = Some ev ->
                      method_call "AddVariable" (ev_req ev) = true -> j < i) /\
        (forall j ev, events (run tk) !! j = Some ev ->
                      method_call "BookMethod" (ev_req ev) = true -> i < j)).
Proof.
  intros tk. split; [|split].
  - revert tk. every_run; vm_compute; lia.
  - revert tk.
    every_run; intros H;
      solve [discriminate H | vm_compute; split; reflexivity].
  - intros i h args resp Hi.
    pose proof (lookup_steps _ _ _ Hi) as Hstep.
    split; [|split].
    + exact (each_event_lookup _ _ _ (run_partition_at tk) i _ Hi).
    + intros j ev Hj Hvar.
      apply lookup_steps in Hj. rewrite (step_of_method _ _ Hvar) in Hj.
      apply (run_steps_in_order tk j i _ _ Hj Hstep). vm_compute. lia.
    + intros j ev Hj Hbook.
      apply lookup_steps in Hj. rewrite (step_of_method _ _ Hbook) in Hj.
      apply (run_steps_in_order tk i j _ _ Hstep Hj). vm_compute. lia.
Qed.

Lemma C7_partitioning_once_witness :
  length (method_args "PrepareTrainingAndTestTree" (run ideal)) = 1 /\
  partitions (take 22 (events (run ideal))) 10
    [VHandle 20; VHandle 21;
     VStr "nTrain_Signal=7000:nTrain_Background=7000:SplitMode=Random:NormMode=NumEvents:!V"] /\
  19 < 22 /\ 22 < 24.
Proof.
  destruct (C7_partitioning_once ideal) as (_ & Hend & Hat).
  assert (Hrun : completed (run ideal)) by (vm_compute; reflexivity).
  split; [exact (proj1 (Hend Hrun))|].
  assert (Hi : events (run ideal) !! 22
               = Some (Event (RMethod 10 "PrepareTrainingAndTestTree"
                        [VHandle 20; VHandle 21;
                         VStr "nTrain_Signal=7000:nTrain_Background=7000:SplitMode=Random:NormMode=NumEvents:!V"])
                        (Return 22)))
    by (vm_compute; reflexivity).
  destruct (Hat _ _ _ _ Hi) as (Hpart & Hvars & Hbook).
  split; [exact Hpart|]. split.
  - refine (Hvars 19 (Event (RMethod 10 "AddVariable" [VStr "m_wwbb"]) (Return 19)) _ _);
      vm_compute; reflexivity.
  - refine (Hbook 24 (Event (RMethod 5 "BookMethod" _) (Return 24)) _ _);
      vm_compute; reflexivity.
Defined.

(** ** The output file *)

(** [C8, as stated] fails on a run that stops early: with "sig_tree" missing
    the printing of the tree raises and Close is never called. *)
Lemma C8_counterexample :
  ~ closed_exactly_once (run (null_on_missing no_sig_tree)).
Proof. vm_compute. discriminate. Qed.

Lemma run_output_at : forall tk, each_event output_at [] (events (run tk)).
Proof. every_run; trace_facts. Qed.

Lemma last_only_lookup sel l :
  last_only sel l = true ->
  forall i ev, l !! i = Some ev -> sel ev = true -> length l = S i.
Proof.
  induction l as [|x l IH]; intros H i ev Hi Hsel; [destruct i; discriminate|].
  destruct l as [|y l].
  - destruct i as [|i]; [reflexivity|]. destruct i; discriminate.
  - cbn [last_only] in H. apply andb_prop in H as [Hx Hl].
    destruct i as [|i]; cbn in Hi.
    + injection Hi as <-. rewrite Hsel in Hx. discriminate.
    + cbn [length]. f_equal. exact (IH Hl i ev Hi Hsel).
Qed.

Lemma run_close_is_last : forall tk, close_is_last (run tk).
Proof.
  every_run; unfold close_is_last;
    apply (last_only_lookup (fun ev => method_call "Close" (ev_req ev)));
    vm_compute; reflexivity.
Qed.

(** [C8, amended] Every run that gets past the imports and the two
    initialization calls opens "ClassificationOutput.root" in RECREATE mode,
    with no check before it, and the factory is only ever constructed on a
    file so opened.  A run that reaches the end closes that file exactly
    once; in any run a Close call is made at most once, on that file, after
    evaluation and ROC plotting and as the last toolkit call.  A run in
    which an earlier call raises never closes the file. *)
Theorem C8_output_file :
  forall tk,
    recreates_output (run tk) /\
    (forall i args resp,
        events (run tk) !! i
        = Some (Event (RStatic ["ROOT"; "TMVA"; "Factory"] args) resp) ->
        factory_on_output (take i (events (run tk))) args) /\
    (forall i h args resp,
        events (run tk) !! i = Some (Event (RMethod h "Close" args) resp) ->
        closes_output (take i (events (run tk))) h args /\
        length (events (run tk)) = S i) /\
    length (closes (run tk)) <= 1 /\
    (completed (run tk) -> closed_exactly_once (run tk)) /\
    (forall i ev e,
        events (run tk) !! i = Some ev -> ev_resp ev = Raise e ->
        method_call "Close" (ev_req ev) = false -> closes (run tk) = []).
Proof.
  intros tk. repeat match goal with |- _ /\ _ => split end.
  - revert tk. every_run; first [left; vm_compute; lia | right; eexists; reflexivity].
  - intros i args resp Hi.
    exact (each_event_lookup _ _ _ (run_output_at tk) i _ Hi).
  - intros i h args resp Hi. split.
    + exact (each_event_lookup _ _ _ (run_output_at tk) i _ Hi).
    + exact (run_close_is_last tk i _ Hi eq_refl).
  - revert tk. every_run; vm_compute; lia.
  - revert tk.
    every_run; intros H; solve [discriminate H | vm_compute; reflexivity].
  - revert tk. every_run; intros i ev0 e0 Hi Hresp Hreq;
      first [ vm_compute; reflexivity | exfalso ].
    all: repeat (destruct i as [|i];
                 [ cbn in Hi; injection Hi as <-;
                   first [ discriminate Hresp | vm_compute in Hreq; discriminate Hreq ] |]).
    all: cbn in Hi; discriminate Hi.
Qed.

Lemma C8_output_file_witness :
  closed_exactly_once (run ideal) /\
  length (events (run ideal)) = 32 /\
  closes (run (null_on_missing no_sig_tree)) = [].
Proof.
  destruct (C8_output_file ideal) as (_ & _ & Hclose & _ & Hend & _).
  destruct (C8_output_file (null_on_missing no_sig_tree)) as (_ & _ & _ & _ & _ & Hfail).
  split; [apply Hend; vm_compute; reflexivity|]. split.
  - refine (proj2 (Hclose 31 4 [] (Return 31) _)). vm_compute. reflexivity.
  - refine (Hfail 9 (Event (RMethod null "Print" []) (Raise ReferenceError)) ReferenceError _ _ _);
      vm_compute; reflexivity.
Defined.

(** ** The input file and its trees *)

(** [C9, as stated] fails for a missing file: the first use of the null
    file object is the retrieval of "sig_tree", and the run fails there. *)
Lemma C9_counterexample : ~ fails_at_tree_use (run (null_on_missing no_file)).
Proof.
  intros (q & Hq & Hsite). vm_compute in Hq. injection Hq as <-.
  vm_compute in Hsite. destruct Hsite; discriminate.
Qed.

Lemma each_suffix_lookup P l :
  each_suffix P l -> forall i ev, l !! i = Some ev -> P ev (drop (S i) l).
Proof.
  induction l as [|x l IH]; intros H i ev Hi; [destruct i; discriminate|].
  destruct H as [Hx Hl]. destruct i as [|i]; cbn in Hi.
  - injection Hi as <-. exact Hx.
  - exact (IH Hl i ev Hi).
Qed.

Ltac settle_unchecked :=
  repeat match goal with
         | |- True => exact I
         | |- _ /\ _ => split
         | |- _ = _ => reflexivity
         | |- forall _ : nat, _ => intro
         | |- _ = _ -> _ =>
             let H := fresh in
             intro H; first [discriminate H | injection H as <-]
         end.

Lemma run_used_unchecked : forall tk, each_suffix used_unchecked (events (run tk)).
Proof. every_run; vm_compute; settle_unchecked. Qed.

Lemma run_file_used_unchecked tk : file_used_unchecked (run tk).
Proof.
  intros i name f Hi.
  pose proof (each_suffix_lookup _ _ (run_used_unchecked tk) i _ Hi) as H.
  unfold asks. replace (S i) with (S i + 0) by lia.
  rewrite <- lookup_drop. exact H.
Qed.

Lemma run_signal_tree_used_unchecked tk : signal_tree_used_unchecked (run tk).
Proof.
  intros i f s Hi.
  pose proof (each_suffix_lookup _ _ (run_used_unchecked tk) i _ Hi) as [H1 H2].
  unfold asks, returns. split.
  - replace (S i) with (S i + 0) by lia. rewrite <- lookup_drop. exact H1.
  - intros b. replace (S (S i)) with (S i + 1) by lia.
    replace (events (run tk) !! S i) with (events (run tk) !! (S i + 0))
      by (f_equal; lia).
    rewrite <- !lookup_drop. apply H2.
Qed.

Lemma run_background_tree_used_unchecked tk :
  background_tree_used_unchecked (run tk).
Proof.
  intros i f b Hi l x.
  pose proof (each_suffix_lookup _ _ (run_used_unchecked tk) i _ Hi l x) as H.
  unfold asks, returns.
  replace (i + 2) with (S i + 1) by lia.
  replace (i + 3) with (S i + 2) by lia.
  replace (i + 4) with (S i + 3) by lia.
  rewrite <- !lookup_drop. exact H.
Qed.

Lemma run_first_null_use f :
  failing_request (run (null_on_missing f)) = first_null_use f.
Proof. destruct f as [[] [] []]; vm_compute; reflexivity. Qed.

(** [C9, amended] The notebook never checks the input file handle or the
    retrieved trees: under every toolkit, whatever the opening of
    "data/tmva_data.root" returns is the receiver of the next request,
    Get("sig_tree"); whatever that returns is printed once Get("bkg_tree")
    has returned; and whatever Get("bkg_tree") returns is handed to
    AddBackgroundTree.  Under a toolkit that gives back a null object for a
    missing file or tree and raises at every use of a null object, the run
    therefore fails at the first use of the null object: at Get("sig_tree")
    when the file is missing, at the printing of the signal tree when
    "sig_tree" is missing, at AddBackgroundTree when only "bkg_tree" is
    missing; with nothing missing it does not fail. *)
Theorem C9_input_objects_unchecked :
  (forall tk,
      file_used_unchecked (run tk) /\
      signal_tree_used_unchecked (run tk) /\
      background_tree_used_unchecked (run tk)) /\
  (forall f, failing_request (run (null_on_missing f)) = first_null_use f).
Proof.
  split.
  - intros tk. split; [|split].
    + apply run_file_used_unchecked.
    + apply run_signal_tree_used_unchecked.
    + apply run_background_tree_used_unchecked.
  - apply run_first_null_use.
Qed.

Lemma C9_input_objects_unchecked_witness :
  asks (run (null_on_missing no_file)) 7 (RMethod null "Get" [VStr "sig_tree"]) /\
  asks (run ideal) 9 (RMethod 7 "Print" []) /\
  asks (run ideal) 12 (RMethod 10 "AddBackgroundTree" [VHandle 8; VFloat 1]) /\
  failing_request (run (null_on_missing no_bkg_tree))
  = Some (RMethod 11 "AddBackgroundTree" [VHandle null; VFloat 1]) /\
  failing_request (run (null_on_missing good_file)) = None.
Proof.
  destruct C9_input_objects_unchecked as [Huse Hfail].
  split; [|split; [|split; [|split; [exact (Hfail no_bkg_tree) | exact (Hfail good_file)]]]].
  - refine (proj1 (Huse (null_on_missing no_file)) 6 "data/tmva_data.root" null _).
    vm_compute. reflexivity.
  - refine (proj2 (proj1 (proj2 (Huse ideal)) 7 6 7 _) 8 _); vm_compute; reflexivity.
  - refine (proj2 (proj2 (Huse ideal)) 8 6 8 _ 10 11 _ _); vm_compute; reflexivity.
Defined.

(** ** Trees and input variables *)

Lemma run_registration_at : forall tk, each_event registration_at [] (events (run tk)).
Proof. every_run; trace_facts. Qed.

(** [C10] Exactly one signal tree and one background tree are registered
    with the data loader, the trees retrieved as "sig_tree" and "bkg_tree",
    each with global weight 1.0, and exactly the seven input variables m_jj,
    m_jjj, m_lv, m_jlv, m_bb, m_wbb, m_wwbb, in that order, each by an
    AddVariable call whose only argument is the bare name.  In no run is any
    other tree or variable registered (a run that stops early has registered
    an initial part of these); a run that reaches the end has registered all
    of them. *)
Theorem C10_trees_and_variables :
  forall tk,
    (forall i h args resp,
        events (run tk) !! i = Some (Event (RMethod h "AddSignalTree" args) resp) ->
        registers_tree "sig_tree" (take i (events (run tk))) h args) /\
    (forall i h args resp,
        events (run tk) !! i = Some (Event (RMethod h "AddBackgroundTree" args) resp) ->
        registers_tree "bkg_tree" (take i (events (run tk))) h args) /\
    (forall i h args resp,
        events (run tk) !! i = Some (Event (RMethod h "AddVariable" args) resp) ->
        registers_variable (take i (events (run tk))) h args) /\
    length (method_args "AddSignalTree" (run tk)) <= 1 /\
    length (method_args "AddBackgroundTree" (run tk)) <= 1 /\
    method_args "AddVariable" (run tk)
      `prefix_of` map (fun n => [VStr n]) input_variables /\
    (completed (run tk) ->
     length (method_args "AddSignalTree" (run tk)) = 1 /\
     length (method_args "AddBackgroundTree" (run tk)) = 1 /\
     method_args "AddVariable" (run tk) = map (fun n => [VStr n]) input_variables).
Proof.
  intros tk. repeat match goal with |- _ /\ _ => split end.
  1-3: intros i h args resp Hi;
       exact (each_event_lookup _ _ _ (run_registration_at tk) i _ Hi).
  all: revert tk.
  - every_run; vm_compute; lia.
  - every_run; vm_compute; lia.
  - every_run; vm_compute; eexists; reflexivity.
  - every_run; intros H;
      solve [discriminate H | vm_compute; repeat split; reflexivity].
Qed.

Lemma C10_trees_and_variables_witness :
  registers_tree "sig_tree" (take 11 (events (run ideal))) 10 [VHandle 7; VFloat 1] /\
  registers_tree "bkg_tree" (take 12 (events (run ideal))) 10 [VHandle 8; VFloat 1] /\
  registers_variable (take 13 (events (run ideal))) 10 [VStr "m_jj"] /\
  method_args "AddVariable" (run ideal) = map (fun n => [VStr n]) input_variables.
Proof.
  destruct (C10_trees_and_variables ideal) as (Hsig & Hbkg & Hvar & _ & _ & _ & Hend).
  repeat match goal with |- _ /\ _ => split end.
  - refine (Hsig 11 10 _ (Return 11) _). vm_compute. reflexivity.
  - refine (Hbkg 12 10 _ (Return 12) _). vm_compute. reflexivity.
  - refine (Hvar 13 10 _ (Return 13) _). vm_compute. reflexivity.
  - apply Hend. vm_compute. reflexivity.
Defined.

(** * Beyond the toolkit calls one by one *)

(** ** Runs of other lists of cells *)

Lemma play_paths (P : result -> Prop) cs :
  paths (fun x tr => P (Result (ended x) tr)) (from_fresh_kernel (exec_cells cs)) [] ->
  forall tk, P (play tk cs).
Proof. intros HP tk. exact (interact_paths _ tk _ [] HP). Qed.

(** Goals [forall tk, P (play tk cs)]: as [every_run], for the cells [cs]. *)
Ltac every_play cs :=
  match goal with
  | |- forall tk : toolkit, _ =>
      let tk := fresh "tk" in
      intro tk; pattern (play tk cs); revert tk; apply play_paths;
      match goal with
      | |- paths _ ?p _ =>
          let p' := eval vm_compute in p in
          let E := fresh "E" in
          assert (E : p = p') by (vm_compute; reflexivity);
          rewrite E; clear E
      end;
      lazy beta iota zeta delta [paths app ended];
      repeat match goal with
             | |- _ /\ _ => split
             | |- forall e : exn, _ => intro
             | |- forall h : handle, _ => intro
             end
  end.

(** ** The shape of a run *)

(** [X1] The notebook does not branch on what the toolkit returns: in every
    run the requests made, with the objects in them blanked out, are an
    initial part of one fixed sequence, the one made when every request
    succeeds, and all of it in a run that reaches the end. *)
Theorem X1_same_requests_whatever_returned :
  forall tk,
    shapes (run tk) `prefix_of` shapes (run ideal) /\
    (completed (run tk) -> shapes (run tk) = shapes (run ideal)).
Proof.
  every_run.
  all: try solve [vm_compute; eexists; reflexivity].
  all: intros H; solve [discriminate H | vm_compute; reflexivity].
Qed.

Lemma X1_same_requests_whatever_returned_witness :
  shapes (run (null_on_missing good_file)) = shapes (run ideal).
Proof.
  apply (X1_same_requests_whatever_returned (null_on_missing good_file)).
  vm_compute. reflexivity.
Defined.

(** ** One factory, one loader *)

Lemma run_factory_use_at : forall tk, each_event factory_use_at [] (events (run tk)).
Proof. every_run; trace_facts. Qed.

(** [X2] At most one factory and one data loader are constructed in a run.
    Every booking, the training, the testing, the evaluation and the request
    for the ROC curve are calls on the constructed factory; every booking
    and the request for the ROC curve pass the constructed loader; and Draw
    is called on what the request for the ROC curve, the request just before
    it, returned. *)
Theorem X2_one_factory_one_loader :
  forall tk,
    on_one_factory (run tk) /\
    length (static_args ["ROOT"; "TMVA"; "Factory"] (run tk)) <= 1 /\
    length (static_args ["ROOT"; "TMVA"; "DataLoader"] (run tk)) <= 1.
Proof.
  intros tk. split; [|split].
  - intros i h m args resp Hi.
    exact (each_event_lookup _ _ _ (run_factory_use_at tk) i _ Hi).
  - revert tk. every_run; vm_compute; lia.
  - revert tk. every_run; vm_compute; lia.
Qed.

Lemma X2_one_factory_one_loader_witness :
  uses_factory (take 30 (events (run ideal))) 29 "Draw" [].
Proof.
  refine (proj1 (X2_one_factory_one_loader ideal) 30 29 "Draw" [] (Return 30) _).
  vm_compute. reflexivity.
Defined.

(** ** The plotting cells *)

Lemma run_magic_at : forall tk, each_event magic_at [] (events (run tk)).
Proof. every_run; trace_facts. Qed.

(** [X3] The only magic of the notebook is %jsroot on.  It is issued at most
    once, once in a run that reaches the end, after EvaluateAllMethods has
    been called and before GetROCCurve is. *)
Theorem X3_jsroot_before_the_curve :
  forall tk,
    magics (run tk) `prefix_of` [RMagic "jsroot" "on"] /\
    (completed (run tk) -> magics (run tk) = [RMagic "jsroot" "on"]) /\
    (forall i ev,
        events (run tk) !! i = Some ev -> is_magic (ev_req ev) = true ->
        called "EvaluateAllMethods" (take i (events (run tk))) = true /\
        called "GetROCCurve" (take i (events (run tk))) = false).
Proof.
  intros tk. split; [|split].
  - revert tk. every_run; vm_compute; eexists; reflexivity.
  - revert tk. every_run; intros H; solve [discriminate H | vm_compute; reflexivity].
  - intros i ev Hi Hm.
    pose proof (each_event_lookup _ _ _ (run_magic_at tk) i _ Hi) as H.
    unfold magic_at in H. rewrite Hm in H. exact H.
Qed.

Lemma X3_jsroot_before_the_curve_witness :
  magics (run ideal) = [RMagic "jsroot" "on"] /\
  called "GetROCCurve" (take 28 (events (run ideal))) = false.
Proof.
  destruct (X3_jsroot_before_the_curve ideal) as (_ & Hend & Hat). split.
  - apply Hend. vm_compute. reflexivity.
  - refine (proj2 (Hat 28 (Event (RMagic "jsroot" "on") (Return 28)) _ _));
      vm_compute; reflexivity.
Defined.

(** ** Option strings as a language *)

Lemma run_options_well_formed :
  forall tk, forallb well_formed_options (option_strings (run tk)) = true.
Proof. every_run; vm_compute; reflexivity. Qed.

Lemma run_activated_options_well_formed :
  forall tk, forallb well_formed_options (option_strings (run_activated tk)) = true.
Proof.
  unfold run_activated.
  every_play (map activate Notebook.cells); vm_compute; reflexivity.
Qed.

(** [X4] Every option string the notebook hands to the Factory constructor,
    to the partitioning and to a booking, the bookings of the raw cell
    included, is a colon-separated list of settings, each a flag (Flag or
    !Flag) or an equation Key=Value with neither side empty, in which no
    flag or key is set twice.  A run that reaches the end hands over four
    of them, seven with the raw cell activated. *)
Theorem X4_option_strings_well_formed :
  forall tk,
    (forall o, In o (option_strings (run tk)) -> well_formed_options o = true) /\
    (forall o, In o (option_strings (run_activated tk)) ->
               well_formed_options o = true) /\
    (completed (run tk) -> length (option_strings (run tk)) = 4) /\
    (completed (run_activated tk) -> length (option_strings (run_activated tk)) = 7).
Proof.
  intros tk. repeat match goal with |- _ /\ _ => split end.
  - intros o Ho.
    exact (proj1 (forallb_forall _ _) (run_options_well_formed tk) o Ho).
  - intros o Ho.
    exact (proj1 (forallb_forall _ _) (run_activated_options_well_formed tk) o Ho).
  - revert tk. every_run; intros H; solve [discriminate H | vm_compute; reflexivity].
  - revert tk. unfold run_activated.
    every_play (map activate Notebook.cells); intros H;
      solve [discriminate H | vm_compute; reflexivity].
Qed.

Lemma X4_option_strings_well_formed_witness :
  well_formed_options
    "!H:!V:NeuronType=tanh:VarTransform=N:NCycles=100:HiddenLayers=N+5:TestRate=5:!UseRegulator"
  = true /\
  length (option_strings (run ideal)) = 4 /\
  length (option_strings (run_activated ideal)) = 7.
Proof.
  destruct (X4_option_strings_well_formed ideal) as (Hwf & _ & Hn & Hm).
  split; [|split].
  - apply Hwf. vm_compute. do 3 right. left. reflexivity.
  - apply Hn. vm_compute. reflexivity.
  - apply Hm. vm_compute. reflexivity.
Defined.

(** ** String literals written in several pieces *)

(** [X5] Where the notebook writes a string literal in several adjacent
    pieces (the option strings that span two or three lines, those of the
    raw cell included), the joined string has exactly the settings written
    in the pieces, in order: every piece but the last ends in the colon, so
    no two settings run together at a line break and none is cut in two. *)
Theorem X5_pieces_join_at_colons :
  forall c ps,
    In c Notebook.cells -> In ps (cell_literals c) -> 1 < length ps ->
    option_tokens (String.concat EmptyString ps) = settings_written ps.
Proof.
  assert (H : forallb
                (fun ps => bool_decide (length ps <= 1)
                           || bool_decide (option_tokens (String.concat EmptyString ps)
                                           = settings_written ps))
                (concat (map cell_literals Notebook.cells)) = true)
    by (vm_compute; reflexivity).
  intros c ps Hc Hps Hlen.
  pose proof (proj1 (forallb_forall _ _) H ps) as Hps'.
  rewrite in_concat in Hps'.
  specialize (Hps' (ex_intro _ (cell_literals c) (conj (in_map _ _ _ Hc) Hps))).
  apply orb_prop in Hps' as [Hle|Heq].
  - apply bool_decide_eq_true in Hle. lia.
  - now apply bool_decide_eq_true in Heq.
Qed.

Lemma X5_pieces_join_at_colons_witness :
  option_tokens
    (String.concat EmptyString
       [ "nTrain_Signal=7000:nTrain_Background=7000:SplitMode=Random:";
         "NormMode=NumEvents:!V" ])
  = [ "nTrain_Signal=7000"; "nTrain_Background=7000"; "SplitMode=Random";
      "NormMode=NumEvents"; "!V" ].
Proof.
  refine (X5_pieces_join_at_colons (Code Notebook.cell_11) _ _ _ _).
  - unfold Notebook.cells. cbn [In]. do 11 right. left. reflexivity.
  - vm_compute. do 2 right. left. reflexivity.
  - vm_compute. lia.
Defined.

(** ** The raw cell activated *)

Lemma run_activated_steps_in_order : forall tk, steps_in_order (run_activated tk).
Proof.
  unfold run_activated.
  every_play (map activate Notebook.cells); unfold steps_in_order;
    apply (never_back_ordered _ 0); vm_compute; reflexivity.
Qed.

(** [X6] With the raw cell made a code cell, the bookings of a run are an
    initial part of BDT, MLP, PyGTB, PyRandomForest, PyAdaBoost, all five in
    a run that reaches the end, each on the factory; the three added
    bookings come before the training, so the order of the steps is kept;
    and the run never ends with an exception of the kernel's own. *)
Theorem X6_raw_cell_activated :
  forall tk,
    booked_names (run_activated tk) `prefix_of` five_bookings /\
    (completed (run_activated tk) -> booked_names (run_activated tk) = five_bookings) /\
    booked_on_factory (run_activated tk) /\
    steps_in_order (run_activated tk) /\
    failed_in_kernel (run_activated tk) = false.
Proof.
  intros tk. repeat match goal with |- _ /\ _ => split end.
  4: apply run_activated_steps_in_order.
  all: revert tk; unfold run_activated; every_play (map activate Notebook.cells).
  all: try solve [vm_compute; reflexivity].
  all: try solve [vm_compute; eexists; reflexivity].
  all: try solve [intros H; first [discriminate H | vm_compute; reflexivity]].
  all: apply booked_on_factory_by_events; trace_facts.
Qed.

Lemma X6_raw_cell_activated_witness :
  booked_names (run_activated ideal) = five_bookings.
Proof.
  apply (X6_raw_cell_activated ideal). vm_compute. reflexivity.
Defined.

(** ** Leaving a cell out *)

Lemma kernel_never_fails {A} tk (p : proc (exn + A)) :
  propagates p ->
  forall hist, failed_in_kernel (result_of (interact tk p hist)) = false.
Proof.
  induction p as [[e0|a]|r kr _ kh IH]; intros Hp hist; cbn in Hp.
  - contradiction.
  - reflexivity.
  - destruct Hp as [Hkr Hkh]. cbn [interact].
    destruct (tk hist r) as [e|h]; [|now apply IH].
    rewrite Hkr. unfold failed_in_kernel. cbn. now rewrite last_snoc.
Qed.

(** [X7] The cells later cells depend on are the import cell, the factory
    cell, the input cell and the loader cell (cells 1, 3, 5 and 9).  Run
    without one of them, the notebook never reaches the end: unless the
    toolkit raises first, the kernel raises NameError for the first name
    then missing (ROOT, factory, signalTree, loader).  Run without any other
    one cell, the notebook never ends with an exception of the kernel's
    own. *)
Theorem X7_cells_needed :
  forall k tk,
    (In k needed_cells ->
     outcome (run_without k tk) <> None /\
     (failed_in_kernel (run_without k tk) = true ->
      outcome (run_without k tk) = Some (NameError (first_missing k)))) /\
    (~ In k needed_cells -> failed_in_kernel (run_without k tk) = false).
Proof.
  intros k tk. split.
  - intros Hk. cbn in Hk. revert tk. unfold run_without.
    destruct Hk as [<-|[<-|[<-|[<-|[]]]]];
      [ every_play (delete 1 Notebook.cells) | every_play (delete 3 Notebook.cells)
      | every_play (delete 5 Notebook.cells) | every_play (delete 9 Notebook.cells) ].
    all: try discriminate.
    all: intros H; vm_compute in H; first [discriminate H | vm_compute; reflexivity].
  - intros Hk. unfold run_without, play. apply kernel_never_fails.
    do 28 (destruct k as [|k];
           [ first [ vm_compute; solve [repeat first [split | intro]]
                   | exfalso; apply Hk; vm_compute; settle ] |]).
    vm_compute. repeat first [split | intro].
Qed.

Lemma X7_cells_needed_witness :
  outcome (run_without 5 ideal) = Some (NameError "signalTree") /\
  failed_in_kernel (run_without 7 (null_on_missing no_sig_tree)) = false.
Proof.
  split.
  - apply (proj1 (X7_cells_needed 5 ideal)).
    + vm_compute. settle.
    + vm_compute. reflexivity.
  - apply (proj2 (X7_cells_needed 7 (null_on_missing no_sig_tree))).
    vm_compute. intros H. repeat destruct H as [H|H]; try discriminate H. exact H.
Defined.

(** ** The kernel's namespace after a run *)

Lemma script_with_namespace_eq :
  script_with_namespace
  = proc_bind (exec_cells Notebook.cells ∅)
      (fun xg => Done (fst xg, map_to_list (snd xg))).
Proof. vm_compute. reflexivity. Qed.

Ltac bindings_found :=
  vm_compute;
  repeat lazymatch goal with |- _ /\ _ => split end;
  solve_in.

Lemma run_namespace_as_assigned tk :
  namespace_as_assigned (fst (interact tk script_with_namespace []))
                        (snd (interact tk script_with_namespace [])).
Proof.
  apply interact_paths. unfold script_with_namespace.
  lazy beta iota zeta delta [paths app].
  repeat match goal with
         | |- _ /\ _ => split
         | |- forall e : exn, _ => intro
         | |- forall h : handle, _ => intro
         end.
  all: unfold namespace_as_assigned, completed; cbn [fst snd ended outcome];
    split; [bindings_found|];
    split; [bindings_found|];
    intros H; first [discriminate H | reflexivity].
Qed.

(** A run stopped at c1.Draw(), or at outputFile.Close() after it, leaves
    all fourteen names bound. *)
Lemma names_kept_after_failure :
  outcome (run (raising_at 30 ReferenceError)) = Some ReferenceError /\
  size (namespace (raising_at 30 ReferenceError)) = 14 /\
  outcome (run (raising_at 31 ReferenceError)) = Some ReferenceError /\
  size (namespace (raising_at 31 ReferenceError)) = 14.
Proof. vm_compute. repeat split. Qed.

(** [X8] Whatever way a run goes, the global namespace it leaves holds
    exactly the bindings of the assignments it reached: each of outputFile,
    factory, inputFile, signalTree, backgroundTree, loader, mycuts, mycutb
    and c1 is bound as soon as the call on the right of its assignment has
    returned, to the very object returned; ROOT and TMVA are bound once
    their import has returned, inputFileName and the two weights once the
    statement before them has; and nothing else is bound.  A run stopped by
    an exception keeps what was bound before it; a run that reaches the end
    leaves fourteen names. *)
Theorem X8_namespace_at_the_end :
  forall tk,
    (forall x v,
        namespace tk !! x = Some v <-> In (x, v) (bindings_made (run tk))) /\
    (completed (run tk) -> size (namespace tk) = 14).
Proof.
  intros tk. pose proof (run_namespace_as_assigned tk) as H.
  rewrite script_with_namespace_eq in H.
  rewrite (interact_map (fun xg => (fst xg, map_to_list (snd xg)))) in H.
  unfold namespace_as_assigned in H. cbn [fst snd] in H.
  assert (Hrun : run tk
                 = Result (ended (fst (fst (interact tk (exec_cells Notebook.cells ∅) []))))
                     (snd (interact tk (exec_cells Notebook.cells ∅) []))).
  { unfold run. rewrite script_eq. unfold from_fresh_kernel.
    now rewrite (interact_map fst). }
  rewrite <- Hrun in H. fold (namespace tk) in H.
  destruct H as (Hin & Hout & Hsize). split.
  - intros x v. rewrite <- elem_of_map_to_list, list_elem_of_In. split.
    + apply (each_In _ _ Hin).
    + apply (each_In _ _ Hout).
  - intros Hend. rewrite <- length_map_to_list. now apply Hsize.
Qed.

Lemma X8_namespace_at_the_end_witness :
  namespace (null_on_missing no_sig_tree) !! "signalTree" = Some (VHandle null) /\
  size (namespace ideal) = 14.
Proof.
  split.
  - apply (proj1 (X8_namespace_at_the_end (null_on_missing no_sig_tree))).
    vm_compute. do 3 right. left. reflexivity.
  - apply (proj2 (X8_namespace_at_the_end ideal)). vm_compute. reflexivity.
Defined.
